(** * Verification of the Quest API deployment scripts

    Shallow embedding of [deploy_backend.py] and [setup_dynamodb.py].

    The two scripts are straight-line reconcilers that talk to a cloud
    provider through boto3 clients.  The embedding keeps the Python control
    flow (sequencing, [try]/[except], truthiness tests, generator searches)
    and abstracts the provider as a record of operations over an arbitrary
    provider state.  Every provider call, [print] and [time.sleep] is
    recorded in an event log so that statements about which operations were
    invoked, and in which order, can be made about the code itself. *)

From stdpp Require Import gmap strings list pretty.

(** ** Python strings *)

(** [needle in hay] on Python strings. *)
Fixpoint str_in (needle hay : string) : bool :=
  String.prefix needle hay ||
  match hay with
  | EmptyString => false
  | String _ hay' => str_in needle hay'
  end.

(** [s.endswith(suf)]. *)
Fixpoint endswith (s suf : string) : bool :=
  bool_decide (s = suf) ||
  match s with
  | EmptyString => false
  | String _ s' => endswith s' suf
  end.

(** Truth value of a variable holding [None] or a [str]: Python's [not x]
    is [negb (truthy x)]. *)
Definition truthy (x : option string) : bool :=
  match x with
  | None => false
  | Some s => negb (bool_decide (s = ""))
  end.

(** [next((f(x) for x in xs if p(x)), None)]. *)
Definition next_or_None {A B} (p : A -> bool) (f : A -> B) (xs : list A) : option B :=
  f <$> List.find p xs.

(** ** Exceptions *)

(** The exception classes the scripts name in [except] clauses, and every
    other error a client can raise.  [exn_str] is [str(e)]. *)
Inductive exn_class : Type :=
| NoSuchEntityException
| ResourceNotFoundException
| ResourceConflictException
| ClientError (code : string).

Record exn : Type := Exn { exn_cls : exn_class; exn_str : string }.

Definition result (A : Type) : Type := (exn + A)%type.

Definition is_NoSuchEntity (e : exn) : bool :=
  match exn_cls e with NoSuchEntityException => true | _ => false end.
Definition is_ResourceNotFound (e : exn) : bool :=
  match exn_cls e with ResourceNotFoundException => true | _ => false end.
Definition is_ResourceConflict (e : exn) : bool :=
  match exn_cls e with ResourceConflictException => true | _ => false end.

(** ** Values passed to and returned by the provider *)

(** JSON document, as built by the [trust_policy] dict literal. *)
#[local] Unset Elimination Schemes.
Inductive json : Type :=
| JStr (s : string)
| JList (xs : list json)
| JObj (fields : list (string * json)).
#[local] Set Elimination Schemes.

(** A zip archive: the sequence of [(arcname, file contents)] written. *)
Definition archive : Type := list (string * string).

(** A [dict] of strings, in insertion order. *)
Definition str_dict : Type := list (string * string).

Record cors_config : Type := Cors {
  AllowOrigins : list string;
  AllowMethods : list string;
  AllowHeaders : list string }.

Record api_item : Type := ApiItem { ApiId : string; Name : string }.
Record integration_item : Type :=
  IntegrationItem { IntegrationId : string; IntegrationUri : option string }.
Record route_item : Type := RouteItem { RouteKey : string }.
Record stage_item : Type := StageItem { StageName : string }.

(** ** Provider calls and the event log *)

Inductive call : Type :=
| GetRole (RoleName : string)
| CreateRole (RoleName : string) (AssumeRolePolicyDocument : json)
| AttachRolePolicy (RoleName PolicyArn : string)
| GetFunction (FunctionName : string)
| UpdateFunctionCode (FunctionName : string) (ZipFile : archive)
| UpdateFunctionConfiguration (FunctionName : string) (Variables : str_dict)
| CreateFunction (FunctionName Runtime : string) (Role : option string)
    (Handler : string) (ZipFile : archive) (Variables : str_dict) (Timeout : nat)
| GetApis
| CreateApi (Name ProtocolType : string) (CorsConfiguration : cors_config)
| GetIntegrations (ApiId : string)
| CreateIntegration (ApiId IntegrationType IntegrationUri PayloadFormatVersion : string)
| GetRoutes (ApiId : string)
| CreateRoute (ApiId RouteKey Target : string)
| GetStages (ApiId : string)
| CreateStage (ApiId StageName : string) (AutoDeploy : bool)
| AddPermission (FunctionName StatementId Action Principal SourceArn : string)
| GetCallerIdentity
| CreateTable (TableName : string) (KeySchema AttributeDefinitions : list str_dict)
    (BillingMode : string)
| WaitUntilExists (TableName : string)
| UpdateTimeToLive (TableName : string) (Enabled : bool) (AttributeName : string).

(** An event is a provider call together with the exception it raised, if
    any, a line printed on standard output, or a [time.sleep]. *)
Inductive event : Type :=
| ECall (c : call) (raised : option exn)
| EPrint (line : string)
| ESleep (seconds : nat).

(** The operations of the boto3 clients the scripts create, over a provider
    state [St].  Each returns the new provider state and either the part of
    the response the scripts read or the exception raised. *)
Record provider (St : Type) : Type := Provider {
  iam_get_role : string -> St -> St * result string;
  iam_create_role : string -> json -> St -> St * result string;
  iam_attach_role_policy : string -> string -> St -> St * result unit;
  lambda_get_function : string -> St -> St * result string;
  lambda_update_function_code : string -> archive -> St -> St * result unit;
  lambda_update_function_configuration : string -> str_dict -> St -> St * result unit;
  lambda_create_function :
    string -> string -> option string -> string -> archive -> str_dict -> nat ->
    St -> St * result unit;
  lambda_add_permission :
    string -> string -> string -> string -> string -> St -> St * result unit;
  sts_get_caller_identity : St -> St * result string;
  apigw_get_apis : St -> St * result (list api_item);
  apigw_create_api : string -> string -> cors_config -> St -> St * result string;
  apigw_get_integrations : string -> St -> St * result (list integration_item);
  apigw_create_integration :
    string -> string -> string -> string -> St -> St * result string;
  apigw_get_routes : string -> St -> St * result (list route_item);
  apigw_create_route : string -> string -> string -> St -> St * result unit;
  apigw_get_stages : string -> St -> St * result (list stage_item);
  apigw_create_stage : string -> string -> bool -> St -> St * result unit;
  dynamodb_create_table :
    string -> list str_dict -> list str_dict -> string -> St -> St * result unit;
  dynamodb_wait_until_exists : string -> St -> St * result unit;
  dynamodb_update_time_to_live : string -> bool -> string -> St -> St * result unit }.

Arguments Provider {St}.
Arguments iam_get_role {St}.
Arguments iam_create_role {St}.
Arguments iam_attach_role_policy {St}.
Arguments lambda_get_function {St}.
Arguments lambda_update_function_code {St}.
Arguments lambda_update_function_configuration {St}.
Arguments lambda_create_function {St}.
Arguments lambda_add_permission {St}.
Arguments sts_get_caller_identity {St}.
Arguments apigw_get_apis {St}.
Arguments apigw_create_api {St}.
Arguments apigw_get_integrations {St}.
Arguments apigw_create_integration {St}.
Arguments apigw_get_routes {St}.
Arguments apigw_create_route {St}.
Arguments apigw_get_stages {St}.
Arguments apigw_create_stage {St}.
Arguments dynamodb_create_table {St}.
Arguments dynamodb_wait_until_exists {St}.
Arguments dynamodb_update_time_to_live {St}.

(** ** The script monad: provider state, event log, exceptions *)

(** A computation runs from a provider state and yields the final state,
    the events it emitted, and a value or the exception that escaped it. *)
Record outcome (St A : Type) : Type := Outcome {
  out_st : St;
  out_log : list event;
  out_res : result A }.

Arguments Outcome {St A}.
Arguments out_st {St A}.
Arguments out_log {St A}.
Arguments out_res {St A}.

Definition M (St A : Type) : Type := St -> outcome St A.

Definition ret {St A} (a : A) : M St A :=
  fun s => Outcome s [] (inr a).

Definition bind {St A B} (m : M St A) (f : A -> M St B) : M St B :=
  fun s =>
    match m s with
    | Outcome s1 l1 (inl e) => Outcome s1 l1 (inl e)
    | Outcome s1 l1 (inr a) =>
        match f a s1 with
        | Outcome s2 l2 r => Outcome s2 (l1 ++ l2) r
        end
    end.

(** [try: body / except <filter> as e: handler e].  [handler e = None] means
    no [except] clause matches and the exception keeps propagating.  The
    provider state reached and the events emitted before the exception are
    kept. *)
Definition try_except {St A} (body : M St A) (handler : exn -> option (M St A)) : M St A :=
  fun s =>
    match body s with
    | Outcome s1 l1 (inr a) => Outcome s1 l1 (inr a)
    | Outcome s1 l1 (inl e) =>
        match handler e with
        | None => Outcome s1 l1 (inl e)
        | Some h =>
            match h s1 with
            | Outcome s2 l2 r => Outcome s2 (l1 ++ l2) r
            end
        end
    end.

Definition print {St} (line : string) : M St unit :=
  fun s => Outcome s [EPrint line] (inr tt).

Definition sleep {St} (seconds : nat) : M St unit :=
  fun s => Outcome s [ESleep seconds] (inr tt).

(** Error raised by a result, for the log. *)
Definition raised_of {A} (r : result A) : option exn :=
  match r with inl e => Some e | inr _ => None end.

(** A provider call: run the operation, log the call and what it raised. *)
Definition invoke {St A} (c : call) (op : St -> St * result A) : M St A :=
  fun s => let '(s', r) := op s in Outcome s' [ECall c (raised_of r)] r.

#[export] Instance M_ret {St} : MRet (M St) := fun _ a => ret a.
#[export] Instance M_bind {St} : MBind (M St) := fun _ _ f m => bind m f.

(** ** The packaged source tree *)

(** The directory tree found at the source directory.  A directory lists its
    entries in the order [os.walk] scans them. *)
#[local] Unset Elimination Schemes.
Inductive node : Type :=
| File (content : string)
| Dir (entries : list (string * node)).
#[local] Set Elimination Schemes.

(** Names of the sub-directories of a directory, and its plain files with
    their contents: the [dirs] and [files] of one [os.walk] triple. *)
Definition dirs_of (entries : list (string * node)) : list string :=
  omap (fun e => match e.2 with Dir _ => Some e.1 | File _ => None end) entries.

Definition files_of (entries : list (string * node)) : list (string * string) :=
  omap (fun e => match e.2 with File c => Some (e.1, c) | Dir _ => None end) entries.

(** [os.walk(source_dir)], top-down.  [root] is kept as the list of path
    components below [source_dir]. *)
Fixpoint walk (root : list string) (n : node) :
    list (list string * list string * list (string * string)) :=
  match n with
  | File _ => []
  | Dir entries =>
      (root, dirs_of entries, files_of entries) ::
      flat_map (fun e => walk (root ++ [e.1]) e.2) entries
  end.

(** [os.path.relpath(os.path.join(root, file), source_dir)] for a [root]
    that [os.walk(source_dir)] produced. *)
Definition relpath (root : list string) (file : string) : string :=
  String.concat "/" (root ++ [file]).

Module deploy_backend.

Section Script.
Context {St : Type} (P : provider St).

Definition get_role (RoleName : string) : M St string :=
  invoke (GetRole RoleName) (iam_get_role P RoleName).
Definition create_role (RoleName : string) (doc : json) : M St string :=
  invoke (CreateRole RoleName doc) (iam_create_role P RoleName doc).
Definition attach_role_policy (RoleName PolicyArn : string) : M St unit :=
  invoke (AttachRolePolicy RoleName PolicyArn) (iam_attach_role_policy P RoleName PolicyArn).
Definition get_function (FunctionName : string) : M St string :=
  invoke (GetFunction FunctionName) (lambda_get_function P FunctionName).
Definition update_function_code (FunctionName : string) (ZipFile : archive) : M St unit :=
  invoke (UpdateFunctionCode FunctionName ZipFile)
    (lambda_update_function_code P FunctionName ZipFile).
Definition update_function_configuration (FunctionName : string) (Variables : str_dict) :
    M St unit :=
  invoke (UpdateFunctionConfiguration FunctionName Variables)
    (lambda_update_function_configuration P FunctionName Variables).
Definition create_function (FunctionName Runtime : string) (Role : option string)
    (Handler : string) (ZipFile : archive) (Variables : str_dict) (Timeout : nat) : M St unit :=
  invoke (CreateFunction FunctionName Runtime Role Handler ZipFile Variables Timeout)
    (lambda_create_function P FunctionName Runtime Role Handler ZipFile Variables Timeout).
Definition add_permission (FunctionName StatementId Action Principal SourceArn : string) :
    M St unit :=
  invoke (AddPermission FunctionName StatementId Action Principal SourceArn)
    (lambda_add_permission P FunctionName StatementId Action Principal SourceArn).
Definition get_caller_identity : M St string :=
  invoke GetCallerIdentity (sts_get_caller_identity P).
Definition get_apis : M St (list api_item) :=
  invoke GetApis (apigw_get_apis P).
Definition create_api (Name ProtocolType : string) (cors : cors_config) : M St string :=
  invoke (CreateApi Name ProtocolType cors) (apigw_create_api P Name ProtocolType cors).
Definition get_integrations (ApiId : string) : M St (list integration_item) :=
  invoke (GetIntegrations ApiId) (apigw_get_integrations P ApiId).
Definition create_integration (ApiId IntegrationType IntegrationUri PayloadFormatVersion : string) :
    M St string :=
  invoke (CreateIntegration ApiId IntegrationType IntegrationUri PayloadFormatVersion)
    (apigw_create_integration P ApiId IntegrationType IntegrationUri PayloadFormatVersion).
Definition get_routes (ApiId : string) : M St (list route_item) :=
  invoke (GetRoutes ApiId) (apigw_get_routes P ApiId).
Definition create_route (ApiId RouteKey Target : string) : M St unit :=
  invoke (CreateRoute ApiId RouteKey Target) (apigw_create_route P ApiId RouteKey Target).
Definition get_stages (ApiId : string) : M St (list stage_item) :=
  invoke (GetStages ApiId) (apigw_get_stages P ApiId).
Definition create_stage (ApiId StageName : string) (AutoDeploy : bool) : M St unit :=
  invoke (CreateStage ApiId StageName AutoDeploy) (apigw_create_stage P ApiId StageName AutoDeploy).

(** [get_role_arn], lines 9-14. *)
Definition get_role_arn (role_name : string) : M St (option string) :=
  try_except
    (arn ← get_role role_name;
     mret (Some arn))
    (fun e => if is_NoSuchEntity e then Some (mret None) else None).

Definition trust_policy : json :=
  JObj [("Version", JStr "2012-10-17");
        ("Statement", JList [
           JObj [("Effect", JStr "Allow");
                 ("Principal", JObj [("Service", JStr "lambda.amazonaws.com")]);
                 ("Action", JStr "sts:AssumeRole")]])].

(** [create_lambda_role], lines 16-54.  The [except Exception] clause
    catches every exception raised in the [try] block. *)
Definition create_lambda_role (role_name : string) : M St (option string) :=
  print ("Creating IAM Role: " +:+ role_name +:+ "...");;
  try_except
    (arn ← create_role role_name trust_policy;
     attach_role_policy role_name
       "arn:aws:iam::aws:policy/service-role/AWSLambdaBasicExecutionRole";;
     attach_role_policy role_name "arn:aws:iam::aws:policy/AmazonDynamoDBFullAccess";;
     print "Waiting for Role propagation...";;
     sleep 10;;
     mret (Some arn))
    (fun e => Some (
       print ("Error creating role: " +:+ exn_str e);;
       get_role_arn role_name)).

(** [create_zip], lines 56-67: the archive entries in the order written. *)
Definition create_zip (source_dir : node) : archive :=
  flat_map (fun '(root, dirs, files) =>
    flat_map (fun '(file, content) =>
      if endswith file ".py" then [(relpath root file, content)] else [])
      files)
    (walk [] source_dir).

(** Lines 84-87: resolve the execution role. *)
Definition role_step (suffix : string) : M St (option string) :=
  let role_name := "QuestLambdaRole" +:+ suffix in
  role_arn ← get_role_arn role_name;
  if negb (truthy role_arn) then create_lambda_role role_name
  else mret role_arn.

(** Lines 96-100. *)
Definition env_vars (suffix : string) : str_dict :=
  [("DYNAMODB_TABLE_SESSIONS", "quest-sessions" +:+ suffix);
   ("DYNAMODB_TABLE_TEAMS", "quest-teams" +:+ suffix)].

(** Lines 102-125: update the function if it exists, create it otherwise.
    The [except] clause covers the three calls of the [try] block. *)
Definition deployable_step (function_name : string) (role_arn : option string)
    (zip_content : archive) (env : str_dict) : M St unit :=
  try_except
    (print ("Checking if function " +:+ function_name +:+ " exists...");;
     get_function function_name;;
     print "Updating function code...";;
     update_function_code function_name zip_content;;
     print "Updating function config...";;
     update_function_configuration function_name env)
    (fun e =>
       if is_ResourceNotFound e then Some (
         print ("Creating function " +:+ function_name +:+ "...");;
         create_function function_name "python3.9" role_arn
           "lambda_function.lambda_handler" zip_content env 15)
       else None).

(** Lines 128-148: find the API by name or create it. *)
Definition api_step (api_name : string) : M St string :=
  print ("Setting up API Gateway: " +:+ api_name +:+ "...");;
  apis ← get_apis;
  let api_id := next_or_None (fun api => bool_decide (Name api = api_name)) ApiId apis in
  if negb (truthy api_id) then
    api_id ← create_api api_name "HTTP" (Cors ["*"] ["GET"; "POST"; "OPTIONS"] ["content-type"]);
    print ("Created API Gateway: " +:+ api_id);;
    mret api_id
  else
    let api_id := default "" api_id in
    print ("Found existing API Gateway: " +:+ api_id);;
    mret api_id.

(** The filter of line 156: ['quest-api' in i.get('IntegrationUri', '')]. *)
Definition integration_matches (i : integration_item) : bool :=
  str_in "quest-api" (default "" (IntegrationUri i)).

(** Lines 155-168: find or create the integration.  Returns
    [integration_id] and [lambda_arn]. *)
Definition integration_step (api_id function_name : string) : M St (string * string) :=
  integrations ← get_integrations api_id;
  let integration_id := next_or_None integration_matches IntegrationId integrations in
  lambda_arn ← get_function function_name;
  if negb (truthy integration_id) then
    print "Creating Integration...";;
    integration_id ← create_integration api_id "AWS_PROXY" lambda_arn "2.0";
    mret (integration_id, lambda_arn)
  else mret (default "" integration_id, lambda_arn).

Definition route_key : string := "ANY /{proxy+}".

(** Lines 172-182. *)
Definition route_step (api_id integration_id : string) : M St unit :=
  routes ← get_routes api_id;
  let route_exists := existsb (fun r => bool_decide (RouteKey r = route_key)) routes in
  if negb route_exists then
    print "Creating Route...";;
    create_route api_id route_key ("integrations/" +:+ integration_id)
  else mret tt.

(** Lines 185-193. *)
Definition stage_step (api_id : string) : M St unit :=
  stages ← get_stages api_id;
  let default_stage := List.find (fun s => bool_decide (StageName s = "$default")) stages in
  if negb (bool_decide (is_Some default_stage)) then
    print "Creating $default Stage (Auto-Deploy)...";;
    create_stage api_id "$default" true
  else mret tt.

(** Lines 197-207: the arguments are evaluated, which queries the caller
    identity, before [add_permission] is called; both happen inside the
    [try] block. *)
Definition permission_step (region function_name api_id : string) : M St unit :=
  try_except
    (account ← get_caller_identity;
     add_permission function_name ("apigateway-invoke-" +:+ api_id)
       "lambda:InvokeFunction" "apigateway.amazonaws.com"
       ("arn:aws:execute-api:" +:+ region +:+ ":" +:+ account +:+ ":" +:+ api_id +:+ "/*/*");;
     print "Added invocation permission.")
    (fun e =>
       if is_ResourceConflict e then Some (print "Permission already exists.")
       else None).

(** Line 209. *)
Definition endpoint_of (api_id region : string) : string :=
  "https://" +:+ api_id +:+ ".execute-api." +:+ region +:+ ".amazonaws.com".

Definition rule : string := "---------------------------------------------------".
Definition newline : string := String (Ascii.ascii_of_nat 10) "".

(** The local variables of [main] that later steps and the report use. *)
Record locals : Type := Locals {
  l_role_arn : option string;
  l_lambda_arn : string;
  l_api_id : string;
  l_integration_id : string;
  l_endpoint : string }.

(** [main], lines 69-213, for the parsed arguments [region] and [suffix]
    and the tree found at ['backend'].  It yields the final values of the
    local variables; the Python function itself returns [None]. *)
Definition main_locals (region suffix : string) (backend : node) : M St locals :=
  print ("Deploying to " +:+ region +:+ " with suffix '" +:+ suffix +:+ "'");;
  role_arn ← role_step suffix;
  let function_name := "quest-api" +:+ suffix in
  print "Zipping backend code...";;
  let zip_content := create_zip backend in
  deployable_step function_name role_arn zip_content (env_vars suffix);;
  let api_name := "quest-api-gateway" +:+ suffix in
  api_id ← api_step api_name;
  '(integration_id, lambda_arn) ← integration_step api_id function_name;
  route_step api_id integration_id;;
  stage_step api_id;;
  permission_step region function_name api_id;;
  let endpoint := endpoint_of api_id region in
  print (newline +:+ rule);;
  print "DEPLOYMENT COMPLETE";;
  print ("API Endpoint: " +:+ endpoint);;
  print rule;;
  mret (Locals role_arn lambda_arn api_id integration_id endpoint).

Definition main (region suffix : string) (backend : node) : M St unit :=
  main_locals region suffix backend;;
  mret tt.

End Script.

End deploy_backend.

Module setup_dynamodb.

Section Script.
Context {St : Type} (P : provider St).

Definition dynamodb_create (TableName : string) (KeySchema AttributeDefinitions : list str_dict)
    (BillingMode : string) : M St unit :=
  invoke (CreateTable TableName KeySchema AttributeDefinitions BillingMode)
    (dynamodb_create_table P TableName KeySchema AttributeDefinitions BillingMode).
Definition wait_until_exists (TableName : string) : M St unit :=
  invoke (WaitUntilExists TableName) (dynamodb_wait_until_exists P TableName).
Definition update_time_to_live (TableName : string) (Enabled : bool) (AttributeName : string) :
    M St unit :=
  invoke (UpdateTimeToLive TableName Enabled AttributeName)
    (dynamodb_update_time_to_live P TableName Enabled AttributeName).

(** The test of lines 20 and 36. *)
Definition wants_ttl (table_name : string) : bool :=
  str_in "sessions" table_name || str_in "teams" table_name.

(** [create_table], lines 4-47.  Both [except Exception] clauses catch every
    exception of their [try] block. *)
Definition create_table (table_name : string) (key_schema attribute_definitions : list str_dict) :
    M St unit :=
  try_except
    (dynamodb_create table_name key_schema attribute_definitions "PAY_PER_REQUEST";;
     print ("Creating table " +:+ table_name +:+ "...");;
     wait_until_exists table_name;;
     print ("Table " +:+ table_name +:+ " created successfully.");;
     sleep 5;;
     if wants_ttl table_name then
       print ("Enabling TTL for " +:+ table_name +:+ "...");;
       update_time_to_live table_name true "expiresAt";;
       print "TTL enabled."
     else mret tt)
    (fun e => Some (
       if str_in "ResourceInUseException" (exn_str e) then
         print ("Table " +:+ table_name +:+ " already exists.");;
         try_except
           (if wants_ttl table_name then
              update_time_to_live table_name true "expiresAt";;
              print ("TTL verified/enabled for existing table " +:+ table_name)
            else mret tt)
           (fun ttl_e => Some (print ("TTL check failed: " +:+ exn_str ttl_e)))
       else
         print ("Error creating " +:+ table_name +:+ ": " +:+ exn_str e))).

Definition sessions_table (suffix : string) : string := "quest-sessions" +:+ suffix.
Definition teams_table (suffix : string) : string := "quest-teams" +:+ suffix.

(** [main], lines 51-86, for the parsed arguments [region] and [suffix]. *)
Definition main (region suffix : string) : M St unit :=
  print ("Connecting to DynamoDB in region: " +:+ region);;
  print ("Provisioning tables: " +:+ sessions_table suffix +:+ ", " +:+ teams_table suffix);;
  create_table (sessions_table suffix)
    [[("AttributeName", "sessionId"); ("KeyType", "HASH")]]
    [[("AttributeName", "sessionId"); ("AttributeType", "S")]];;
  create_table (teams_table suffix)
    [[("AttributeName", "teamCode"); ("KeyType", "HASH")]]
    [[("AttributeName", "teamCode"); ("AttributeType", "S")]].

End Script.

End setup_dynamodb.

(** * A reference provider

    An in-memory provider for one account and region, used to state what a
    run does to the provider's resources.  It follows the documented
    behaviour of the control-plane operations the scripts call: lookups of
    missing resources raise the client's not-found exception, creations of
    existing named resources raise a conflict, identifiers are assigned by
    the provider and never reused. *)

Module Cloud.

Record role_rec : Type := RoleRec {
  r_arn : string;
  r_trust : json;
  r_policies : list string }.

Record permission_rec : Type := PermissionRec {
  p_sid : string;
  p_action : string;
  p_principal : string;
  p_source_arn : string }.

Record function_rec : Type := FunctionRec {
  f_arn : string;
  f_runtime : string;
  f_role : string;
  f_handler : string;
  f_code : archive;
  f_env : str_dict;
  f_timeout : nat;
  f_permissions : list permission_rec }.

Record integration_rec : Type := IntegrationRec {
  i_type : string;
  i_uri : string;
  i_payload : string }.

Record api_rec : Type := ApiRec {
  a_name : string;
  a_protocol : string;
  a_cors : cors_config;
  a_integrations : list integration_rec;
  a_routes : list (string * string);
  a_stages : list (string * bool) }.

Record table_rec : Type := TableRec {
  t_key_schema : list str_dict;
  t_attributes : list str_dict;
  t_billing : string;
  t_ttl : option string }.

(** Roles, functions and tables are keyed by name.  APIs are kept in
    creation order and identified by their position, integrations likewise
    within their API. *)
Record cloud : Type := CloudSt {
  roles : gmap string role_rec;
  functions : gmap string function_rec;
  apis : list api_rec;
  tables : gmap string table_rec }.

Definition empty : cloud := CloudSt ∅ ∅ [] ∅.

Definition account : string := "123456789012".

Definition api_id_of (i : nat) : string := "api" +:+ pretty i.
Definition integration_id_of (j : nat) : string := "int" +:+ pretty j.

Definition role_arn_of (name : string) : string :=
  "arn:aws:iam::" +:+ account +:+ ":role/" +:+ name.
Definition function_arn_of (region name : string) : string :=
  "arn:aws:lambda:" +:+ region +:+ ":" +:+ account +:+ ":function:" +:+ name.

(** Position of the API with identifier [id], if any. *)
Definition api_index (s : cloud) (id : string) : option nat :=
  List.find (fun i => bool_decide (api_id_of i = id)) (seq 0 (length (apis s))).

Definition lookup_api (s : cloud) (id : string) : option (nat * api_rec) :=
  i ← api_index s id; a ← apis s !! i; Some (i, a).

Definition client_error (code op : string) : exn :=
  Exn (ClientError code)
    ("An error occurred (" +:+ code +:+ ") when calling the " +:+ op +:+ " operation").

Definition no_such_entity : exn :=
  Exn NoSuchEntityException
    "An error occurred (NoSuchEntity) when calling the GetRole operation".
Definition function_not_found (op : string) : exn :=
  Exn ResourceNotFoundException
    ("An error occurred (ResourceNotFoundException) when calling the " +:+ op +:+ " operation").
Definition function_conflict (op : string) : exn :=
  Exn ResourceConflictException
    ("An error occurred (ResourceConflictException) when calling the " +:+ op +:+ " operation").

Definition set_roles (s : cloud) (r : gmap string role_rec) : cloud :=
  CloudSt r (functions s) (apis s) (tables s).
Definition set_functions (s : cloud) (f : gmap string function_rec) : cloud :=
  CloudSt (roles s) f (apis s) (tables s).
Definition set_apis (s : cloud) (a : list api_rec) : cloud :=
  CloudSt (roles s) (functions s) a (tables s).
Definition set_tables (s : cloud) (t : gmap string table_rec) : cloud :=
  CloudSt (roles s) (functions s) (apis s) t.

Definition get_role (name : string) (s : cloud) : cloud * result string :=
  match roles s !! name with
  | Some r => (s, inr (r_arn r))
  | None => (s, inl no_such_entity)
  end.

Definition create_role (name : string) (doc : json) (s : cloud) : cloud * result string :=
  match roles s !! name with
  | Some _ => (s, inl (client_error "EntityAlreadyExists" "CreateRole"))
  | None =>
      (set_roles s (<[name := RoleRec (role_arn_of name) doc []]> (roles s)),
       inr (role_arn_of name))
  end.

Definition attach_role_policy (name policy : string) (s : cloud) : cloud * result unit :=
  match roles s !! name with
  | Some r =>
      (set_roles s
         (<[name := RoleRec (r_arn r) (r_trust r) (r_policies r ++ [policy])]> (roles s)),
       inr tt)
  | None => (s, inl (client_error "NoSuchEntity" "AttachRolePolicy"))
  end.

Definition get_function (name : string) (s : cloud) : cloud * result string :=
  match functions s !! name with
  | Some f => (s, inr (f_arn f))
  | None => (s, inl (function_not_found "GetFunction"))
  end.

Definition update_function_code (name : string) (zip : archive) (s : cloud) :
    cloud * result unit :=
  match functions s !! name with
  | Some f =>
      (set_functions s
         (<[name := FunctionRec (f_arn f) (f_runtime f) (f_role f) (f_handler f) zip
                      (f_env f) (f_timeout f) (f_permissions f)]> (functions s)),
       inr tt)
  | None => (s, inl (function_not_found "UpdateFunctionCode"))
  end.

Definition update_function_configuration (name : string) (env : str_dict) (s : cloud) :
    cloud * result unit :=
  match functions s !! name with
  | Some f =>
      (set_functions s
         (<[name := FunctionRec (f_arn f) (f_runtime f) (f_role f) (f_handler f) (f_code f)
                      env (f_timeout f) (f_permissions f)]> (functions s)),
       inr tt)
  | None => (s, inl (function_not_found "UpdateFunctionConfiguration"))
  end.

(** A missing [Role] is rejected when the request is validated. *)
Definition create_function (region : string) (name runtime : string) (role : option string)
    (handler : string) (zip : archive) (env : str_dict) (timeout : nat) (s : cloud) :
    cloud * result unit :=
  match role with
  | None => (s, inl (Exn (ClientError "ParamValidationError")
                       "Parameter validation failed: Invalid type for parameter Role"))
  | Some role =>
      match functions s !! name with
      | Some _ => (s, inl (function_conflict "CreateFunction"))
      | None =>
          (set_functions s
             (<[name := FunctionRec (function_arn_of region name) runtime role handler zip
                          env timeout []]> (functions s)),
           inr tt)
      end
  end.

Definition add_permission (name sid action principal source_arn : string) (s : cloud) :
    cloud * result unit :=
  match functions s !! name with
  | None => (s, inl (function_not_found "AddPermission"))
  | Some f =>
      if bool_decide (sid ∈ p_sid <$> f_permissions f) then
        (s, inl (function_conflict "AddPermission"))
      else
        (set_functions s
           (<[name := FunctionRec (f_arn f) (f_runtime f) (f_role f) (f_handler f) (f_code f)
                        (f_env f) (f_timeout f)
                        (f_permissions f ++ [PermissionRec sid action principal source_arn])]>
              (functions s)),
         inr tt)
  end.

Definition get_caller_identity (s : cloud) : cloud * result string :=
  (s, inr account).

Definition api_not_found (op : string) : exn := client_error "NotFoundException" op.

Definition get_apis (s : cloud) : cloud * result (list api_item) :=
  (s, inr (imap (fun i a => ApiItem (api_id_of i) (a_name a)) (apis s))).

Definition create_api (name protocol : string) (cors : cors_config) (s : cloud) :
    cloud * result string :=
  (set_apis s (apis s ++ [ApiRec name protocol cors [] [] []]),
   inr (api_id_of (length (apis s)))).

Definition get_integrations (id : string) (s : cloud) :
    cloud * result (list integration_item) :=
  match lookup_api s id with
  | None => (s, inl (api_not_found "GetIntegrations"))
  | Some (_, a) =>
      (s, inr (imap (fun j r => IntegrationItem (integration_id_of j) (Some (i_uri r)))
                 (a_integrations a)))
  end.

Definition create_integration (id type uri payload : string) (s : cloud) :
    cloud * result string :=
  match lookup_api s id with
  | None => (s, inl (api_not_found "CreateIntegration"))
  | Some (i, a) =>
      (set_apis s
         (<[i := ApiRec (a_name a) (a_protocol a) (a_cors a)
                   (a_integrations a ++ [IntegrationRec type uri payload])
                   (a_routes a) (a_stages a)]> (apis s)),
       inr (integration_id_of (length (a_integrations a))))
  end.

Definition get_routes (id : string) (s : cloud) : cloud * result (list route_item) :=
  match lookup_api s id with
  | None => (s, inl (api_not_found "GetRoutes"))
  | Some (_, a) => (s, inr ((fun r => RouteItem r.1) <$> a_routes a))
  end.

Definition create_route (id key target : string) (s : cloud) : cloud * result unit :=
  match lookup_api s id with
  | None => (s, inl (api_not_found "CreateRoute"))
  | Some (i, a) =>
      if bool_decide (key ∈ (a_routes a).*1) then
        (s, inl (client_error "ConflictException" "CreateRoute"))
      else
        (set_apis s
           (<[i := ApiRec (a_name a) (a_protocol a) (a_cors a) (a_integrations a)
                     (a_routes a ++ [(key, target)]) (a_stages a)]> (apis s)),
         inr tt)
  end.

Definition get_stages (id : string) (s : cloud) : cloud * result (list stage_item) :=
  match lookup_api s id with
  | None => (s, inl (api_not_found "GetStages"))
  | Some (_, a) => (s, inr ((fun r => StageItem r.1) <$> a_stages a))
  end.

Definition create_stage (id name : string) (auto_deploy : bool) (s : cloud) :
    cloud * result unit :=
  match lookup_api s id with
  | None => (s, inl (api_not_found "CreateStage"))
  | Some (i, a) =>
      if bool_decide (name ∈ (a_stages a).*1) then
        (s, inl (client_error "ConflictException" "CreateStage"))
      else
        (set_apis s
           (<[i := ApiRec (a_name a) (a_protocol a) (a_cors a) (a_integrations a)
                     (a_routes a) (a_stages a ++ [(name, auto_deploy)])]> (apis s)),
         inr tt)
  end.

Definition create_table (name : string) (key_schema attributes : list str_dict)
    (billing : string) (s : cloud) : cloud * result unit :=
  match tables s !! name with
  | Some _ => (s, inl (client_error "ResourceInUseException" "CreateTable"))
  | None =>
      (set_tables s (<[name := TableRec key_schema attributes billing None]> (tables s)),
       inr tt)
  end.

Definition wait_until_exists (name : string) (s : cloud) : cloud * result unit :=
  match tables s !! name with
  | Some _ => (s, inr tt)
  | None => (s, inl (client_error "WaiterError" "DescribeTable"))
  end.

(** Enabling time-to-live on a table that already has it is rejected. *)
Definition update_time_to_live (name : string) (enabled : bool) (attribute : string)
    (s : cloud) : cloud * result unit :=
  match tables s !! name with
  | None => (s, inl (client_error "ResourceNotFoundException" "UpdateTimeToLive"))
  | Some t =>
      if bool_decide (is_Some (t_ttl t)) && enabled then
        (s, inl (client_error "ValidationException" "UpdateTimeToLive"))
      else
        (set_tables s
           (<[name := TableRec (t_key_schema t) (t_attributes t) (t_billing t)
                        (if enabled then Some attribute else None)]> (tables s)),
         inr tt)
  end.

(** The clients of one region. *)
Definition clients (region : string) : provider cloud :=
  Provider get_role create_role attach_role_policy
    get_function update_function_code update_function_configuration
    (create_function region) add_permission get_caller_identity
    get_apis create_api get_integrations create_integration
    get_routes create_route get_stages create_stage
    create_table wait_until_exists update_time_to_live.

End Cloud.

(** A provider whose [create_role] always raises [e] and is otherwise [P]. *)
Definition with_failing_create_role {St} (e : exn) (P : provider St) : provider St :=
  Provider (iam_get_role P) (fun _ _ s => (s, inl e)) (iam_attach_role_policy P)
    (lambda_get_function P) (lambda_update_function_code P)
    (lambda_update_function_configuration P) (lambda_create_function P)
    (lambda_add_permission P) (sts_get_caller_identity P)
    (apigw_get_apis P) (apigw_create_api P) (apigw_get_integrations P)
    (apigw_create_integration P) (apigw_get_routes P) (apigw_create_route P)
    (apigw_get_stages P) (apigw_create_stage P)
    (dynamodb_create_table P) (dynamodb_wait_until_exists P)
    (dynamodb_update_time_to_live P).

(** A provider whose [create_table] always raises [e] and is otherwise [P]. *)
Definition with_failing_create_table {St} (e : exn) (P : provider St) : provider St :=
  Provider (iam_get_role P) (iam_create_role P) (iam_attach_role_policy P)
    (lambda_get_function P) (lambda_update_function_code P)
    (lambda_update_function_configuration P) (lambda_create_function P)
    (lambda_add_permission P) (sts_get_caller_identity P)
    (apigw_get_apis P) (apigw_create_api P) (apigw_get_integrations P)
    (apigw_create_integration P) (apigw_get_routes P) (apigw_create_route P)
    (apigw_get_stages P) (apigw_create_stage P)
    (fun _ _ _ _ s => (s, inl e)) (dynamodb_wait_until_exists P)
    (dynamodb_update_time_to_live P).

(** ** Sample inputs *)

Definition sample_backend : node :=
  Dir [("lambda_function.py", File "def lambda_handler(event, context): pass");
       ("requirements.txt", File "boto3");
       ("quest", Dir [("__init__.py", File "");
                      ("teams.py", File "TEAMS = {}");
                      ("data.json", File "{}")])].

Definition access_denied : exn :=
  Exn (ClientError "AccessDenied")
    "An error occurred (AccessDenied) when calling the CreateRole operation".

(** ** Files of a source tree *)

(** [has_file n path c]: below the directory [n], the path with components
    [path] is a plain file with contents [c]. *)
Inductive has_file : node -> list string -> string -> Prop :=
| has_file_here entries file c :
    (file, File c) ∈ entries -> has_file (Dir entries) [file] c
| has_file_below entries d sub path c :
    (d, sub) ∈ entries -> has_file sub path c -> has_file (Dir entries) (d :: path) c.

(** The reference clients of [us-east-1] with a [create_role] that is denied. *)
Definition denied_clients : provider Cloud.cloud :=
  with_failing_create_role access_denied (Cloud.clients "us-east-1").

(** A provider state in which the function of the [-dev] environment is
    already deployed and its role is gone. *)
Definition function_without_role : Cloud.cloud :=
  Cloud.CloudSt ∅
    {[ "quest-api-dev" :=
         Cloud.FunctionRec (Cloud.function_arn_of "us-east-1" "quest-api-dev") "python3.9"
           (Cloud.role_arn_of "QuestLambdaRole-dev") "lambda_function.lambda_handler"
           [("lambda_function.py", "old")] [] 15 [] ]}
    [] ∅.

(** What [get_role_arn] makes of the outcome of [get_role]. *)
Definition probe_result (r : result string) : result (option string) :=
  match r with
  | inr arn => inr (Some arn)
  | inl e => if is_NoSuchEntity e then inr None else inl e
  end.

(** A provider state in which the gateway of the [-dev] environment holds
    one integration, whose target is the function of another environment. *)
Definition foreign_integration : Cloud.cloud :=
  Cloud.CloudSt ∅
    {[ "quest-api-dev" :=
         Cloud.FunctionRec (Cloud.function_arn_of "us-east-1" "quest-api-dev") "python3.9"
           (Cloud.role_arn_of "QuestLambdaRole-dev") "lambda_function.lambda_handler"
           [] [] 15 [] ]}
    [Cloud.ApiRec "quest-api-gateway-dev" "HTTP" (Cors ["*"] [] [])
       [Cloud.IntegrationRec "AWS_PROXY"
          (Cloud.function_arn_of "us-east-1" "quest-api-stage") "2.0"]
       [] []]
    ∅.

(** The calls on the API Gateway client. *)
Definition gateway_call (c : call) : bool :=
  match c with
  | GetApis | CreateApi _ _ _ | GetIntegrations _ | CreateIntegration _ _ _ _
  | GetRoutes _ | CreateRoute _ _ _ | GetStages _ | CreateStage _ _ _ => true
  | _ => false
  end.

Definition gateway_event (ev : event) : bool :=
  match ev with
  | ECall c _ => gateway_call c
  | _ => false
  end.

(** The exceptions the [except] clauses of [deploy_backend.py] can catch, by
    the call that raised them: [NoSuchEntityException] from [get_role]
    (lines 13-14), anything from [create_role] and [attach_role_policy]
    (line 51), [ResourceNotFoundException] from the function lookup and
    updates of the [try] block of lines 102-114 (line 115),
    [ResourceConflictException] from the permission grant and the evaluation
    of its arguments (line 206).

    [gateway_before] tells whether a call on the API Gateway client came
    earlier in the run.  The [try] block of lines 102-114 is over before the
    first of them (line 132), whereas the function lookup of line 158 follows
    [get_integrations] (line 155) and stands outside every [try] block: no
    exception it raises can be caught. *)
Definition absorbed (gateway_before : bool) (c : call) (e : exn) : bool :=
  match c with
  | GetRole _ => is_NoSuchEntity e
  | CreateRole _ _ | AttachRolePolicy _ _ => true
  | GetFunction _ => is_ResourceNotFound e && negb gateway_before
  | UpdateFunctionCode _ _ | UpdateFunctionConfiguration _ _ => is_ResourceNotFound e
  | AddPermission _ _ _ _ _ | GetCallerIdentity => is_ResourceConflict e
  | _ => false
  end.

(** [propagates gateway_before log raised]: every call of [log] that raised
    an exception outside the catchable ones is the last event of the log,
    and its exception is the one that escaped.  [gateway_before] tells
    whether a call on the API Gateway client came before [log]. *)
Fixpoint propagates (gateway_before : bool) (log : list event) (raised : option exn) : Prop :=
  match log with
  | [] => True
  | ev :: log' =>
      match ev with
      | ECall c (Some e) =>
          absorbed gateway_before c e = true \/ (log' = [] /\ raised = Some e)
      | _ => True
      end /\ propagates (gateway_before || gateway_event ev) log' raised
  end.

Definition faithful {St A} (gateway_before : bool) (o : outcome St A) : Prop :=
  propagates gateway_before (out_log o) (raised_of (out_res o)).

(** The reference clients of [us-east-1] with a [create_table] that is denied. *)
Definition denied_table_clients : provider Cloud.cloud :=
  with_failing_create_table
    (Cloud.client_error "AccessDeniedException" "CreateTable") (Cloud.clients "us-east-1").

(** The calls of the role step. *)
Definition iam_call (c : call) : bool :=
  match c with
  | GetRole _ | CreateRole _ _ | AttachRolePolicy _ _ => true
  | _ => false
  end.

Definition iam_only (ev : event) : Prop :=
  match ev with
  | ECall c _ => iam_call c = true
  | _ => True
  end.

(** Every function creation of the event passes [role_arn] as its role. *)
Definition role_passed (role_arn : option string) (ev : event) : Prop :=
  match ev with
  | ECall (CreateFunction _ _ role _ _ _ _) _ => role = role_arn
  | _ => True
  end.

(** [looked_up fn seen log]: every integration creation of [log] comes after
    a successful lookup of the function [fn], [seen] telling whether one
    happened before [log]. *)
Fixpoint looked_up (fn : string) (seen : bool) (log : list event) : Prop :=
  match log with
  | [] => True
  | ECall (GetFunction f) None :: log' => looked_up fn (seen || bool_decide (f = fn)) log'
  | ECall (CreateIntegration _ _ _ _) _ :: log' => seen = true /\ looked_up fn seen log'
  | _ :: log' => looked_up fn seen log'
  end.

(** A provider whose [attach_role_policy] always raises [e] and is otherwise [P]. *)
Definition with_failing_attach_role_policy {St} (e : exn) (P : provider St) : provider St :=
  Provider (iam_get_role P) (iam_create_role P) (fun _ _ s => (s, inl e))
    (lambda_get_function P) (lambda_update_function_code P)
    (lambda_update_function_configuration P) (lambda_create_function P)
    (lambda_add_permission P) (sts_get_caller_identity P)
    (apigw_get_apis P) (apigw_create_api P) (apigw_get_integrations P)
    (apigw_create_integration P) (apigw_get_routes P) (apigw_create_route P)
    (apigw_get_stages P) (apigw_create_stage P)
    (dynamodb_create_table P) (dynamodb_wait_until_exists P)
    (dynamodb_update_time_to_live P).

(** A provider whose [get_role] always raises [e] and is otherwise [P]. *)
Definition with_failing_get_role {St} (e : exn) (P : provider St) : provider St :=
  Provider (fun _ s => (s, inl e)) (iam_create_role P) (iam_attach_role_policy P)
    (lambda_get_function P) (lambda_update_function_code P)
    (lambda_update_function_configuration P) (lambda_create_function P)
    (lambda_add_permission P) (sts_get_caller_identity P)
    (apigw_get_apis P) (apigw_create_api P) (apigw_get_integrations P)
    (apigw_create_integration P) (apigw_get_routes P) (apigw_create_route P)
    (apigw_get_stages P) (apigw_create_stage P)
    (dynamodb_create_table P) (dynamodb_wait_until_exists P)
    (dynamodb_update_time_to_live P).

Definition throttled : exn :=
  Exn (ClientError "Throttling") "An error occurred (Throttling): Rate exceeded".

(** The provider state a first [-dev] deployment to [us-east-1] leaves. *)
Definition deployed_dev : Cloud.cloud :=
  out_st (deploy_backend.main (Cloud.clients "us-east-1") "us-east-1" "-dev" sample_backend
            Cloud.empty).

(** A provider whose [update_function_code] always raises [e] and is
    otherwise [P]. *)
Definition with_failing_update_function_code {St} (e : exn) (P : provider St) : provider St :=
  Provider (iam_get_role P) (iam_create_role P) (iam_attach_role_policy P)
    (lambda_get_function P) (fun _ _ s => (s, inl e))
    (lambda_update_function_configuration P) (lambda_create_function P)
    (lambda_add_permission P) (sts_get_caller_identity P)
    (apigw_get_apis P) (apigw_create_api P) (apigw_get_integrations P)
    (apigw_create_integration P) (apigw_get_routes P) (apigw_create_route P)
    (apigw_get_stages P) (apigw_create_stage P)
    (dynamodb_create_table P) (dynamodb_wait_until_exists P)
    (dynamodb_update_time_to_live P).

(** The calls [setup_dynamodb.main] may make for a suffix. *)
Definition table_call (suffix : string) (ev : event) : Prop :=
  match ev with
  | ECall (CreateTable n _ _ _) _ | ECall (WaitUntilExists n) _
  | ECall (UpdateTimeToLive n _ _) _ =>
      n = setup_dynamodb.sessions_table suffix \/ n = setup_dynamodb.teams_table suffix
  | ECall _ _ => False
  | _ => True
  end.

(** The provider state a first [-dev] table setup in [us-east-1] leaves. *)
Definition tables_dev : Cloud.cloud :=
  out_st (setup_dynamodb.main (Cloud.clients "us-east-1") "us-east-1" "-dev" Cloud.empty).

(** The calls [deploy_backend.main] may make for a suffix: those addressed by
    a resource name use the name derived from the suffix, and no table call
    is made. *)
Definition own_call (suffix : string) (ev : event) : Prop :=
  match ev with
  | ECall (GetRole n) _ | ECall (CreateRole n _) _ | ECall (AttachRolePolicy n _) _ =>
      n = "QuestLambdaRole" +:+ suffix
  | ECall (GetFunction n) _ | ECall (UpdateFunctionCode n _) _
  | ECall (UpdateFunctionConfiguration n _) _ | ECall (CreateFunction n _ _ _ _ _ _) _
  | ECall (AddPermission n _ _ _ _) _ =>
      n = "quest-api" +:+ suffix
  | ECall (CreateApi n _ _) _ => n = "quest-api-gateway" +:+ suffix
  | ECall (CreateTable _ _ _ _) _ | ECall (WaitUntilExists _) _
  | ECall (UpdateTimeToLive _ _ _) _ => False
  | _ => True
  end.

(** Every call of the event that is addressed by an API identifier uses
    [api_id]. *)
Definition api_passed (api_id : string) (ev : event) : Prop :=
  match ev with
  | ECall (GetIntegrations a) _ | ECall (CreateIntegration a _ _ _) _
  | ECall (GetRoutes a) _ | ECall (CreateRoute a _ _) _
  | ECall (GetStages a) _ | ECall (CreateStage a _ _) _ => a = api_id
  | _ => True
  end.

(** The event is not the completion banner of [deploy_backend.main]. *)
Definition not_banner (ev : event) : Prop := ev <> EPrint "DEPLOYMENT COMPLETE".

(** A failed computation printed no completion banner. *)
Definition quiet_on_failure {St A} (o : outcome St A) : Prop :=
  forall e, out_res o = inl e -> Forall not_banner (out_log o).

(** Every function update or creation of the event carries the archive
    [zip] and the environment [env], creations with the fixed runtime,
    handler and timeout. *)
Definition deploys (zip : archive) (env : str_dict) (ev : event) : Prop :=
  match ev with
  | ECall (UpdateFunctionCode _ z) _ => z = zip
  | ECall (UpdateFunctionConfiguration _ v) _ => v = env
  | ECall (CreateFunction _ rt _ h z v t) _ =>
      rt = "python3.9" /\ h = "lambda_function.lambda_handler" /\ z = zip /\ v = env /\
      t = 15%nat
  | _ => True
  end.

(** The [argparse] defaults of the two scripts (lines 71-72 of
    [deploy_backend.py], lines 53-54 of [setup_dynamodb.py]): what [region]
    and [suffix] are when the script is run without arguments. *)
Definition deploy_default_region : string := "us-east-1".
Definition deploy_default_env : string := "-dev".
Definition setup_default_region : string := "us-east-1".
Definition setup_default_env : string := "".

(** A provider whose [get_function] always raises [e] and is otherwise [P]:
    function creation is accepted, but the function is never seen. *)
Definition with_failing_get_function {St} (e : exn) (P : provider St) : provider St :=
  Provider (iam_get_role P) (iam_create_role P) (iam_attach_role_policy P)
    (fun _ s => (s, inl e)) (lambda_update_function_code P)
    (lambda_update_function_configuration P) (lambda_create_function P)
    (lambda_add_permission P) (sts_get_caller_identity P)
    (apigw_get_apis P) (apigw_create_api P) (apigw_get_integrations P)
    (apigw_create_integration P) (apigw_get_routes P) (apigw_create_route P)
    (apigw_get_stages P) (apigw_create_stage P)
    (dynamodb_create_table P) (dynamodb_wait_until_exists P)
    (dynamodb_update_time_to_live P).

(** The reference clients of [us-east-1] with a function lookup that never
    finds the function. *)
Definition unseen_function_clients : provider Cloud.cloud :=
  with_failing_get_function (Cloud.function_not_found "GetFunction")
    (Cloud.clients "us-east-1").

(** * Properties *)

(** ** Strings *)

Lemma str_app_nil_l (s : string) : "" +:+ s = s.
Proof. reflexivity. Qed.

Lemma str_app_cons (ch : Ascii.ascii) (a b : string) :
  String ch a +:+ b = String ch (a +:+ b).
Proof. reflexivity. Qed.

Lemma str_app_assoc (a b c : string) : (a +:+ b) +:+ c = a +:+ b +:+ c.
Proof. induction a as [|ch a IH]; [done|]. rewrite !str_app_cons. by f_equal. Qed.

Lemma prefix_app (a b : string) : String.prefix a (a +:+ b) = true.
Proof.
  induction a as [|ch a IH].
  - rewrite str_app_nil_l. by destruct b.
  - rewrite str_app_cons. simpl. destruct (Ascii.ascii_dec ch ch); [exact IH | done].
Qed.

Lemma str_in_app (needle pre post : string) :
  str_in needle (pre +:+ needle +:+ post) = true.
Proof.
  assert (Hunfold : forall hay, String.prefix needle hay = true -> str_in needle hay = true).
  { intros [|ch hay] H; cbn [str_in]; by rewrite H. }
  induction pre as [|ch pre IH].
  - rewrite str_app_nil_l. apply Hunfold, prefix_app.
  - rewrite str_app_cons. cbn [str_in]. rewrite IH. apply orb_true_r.
Qed.

Lemma endswith_spec (s suf : string) :
  endswith s suf = true <-> exists pre, s = pre +:+ suf.
Proof.
  induction s as [|ch s IH]; cbn [endswith].
  - rewrite orb_false_r, bool_decide_eq_true. split.
    + intros <-. by exists "".
    + intros [[|ch pre] E]; [done | discriminate].
  - rewrite orb_true_iff, bool_decide_eq_true, IH. split.
    + intros [<- | [pre ->]]; [by exists "" | by exists (String ch pre)].
    + intros [[|ch' pre] E]; [by left |].
      right. exists pre. rewrite str_app_cons in E. congruence.
Qed.

Lemma str_app_nonempty (a b : string) : a <> "" -> a +:+ b <> "".
Proof. by destruct a. Qed.

(** ** Packaging *)

Fixpoint node_nested_ind (Q : node -> Prop)
    (HF : forall c, Q (File c))
    (HD : forall entries, Forall (fun e => Q e.2) entries -> Q (Dir entries))
    (n : node) : Q n :=
  match n with
  | File c => HF c
  | Dir entries =>
      HD entries
        ((fix go (es : list (string * node)) : Forall (fun e => Q e.2) es :=
            match es return Forall (fun e => Q e.2) es with
            | [] => List.Forall_nil _
            | e :: es' => List.Forall_cons _ e es' (node_nested_ind Q HF HD e.2) (go es')
            end) entries)
  end.

(** The archive entries written for the triples of a walk started at
    [root]. *)
Definition zip_entries (root : list string) (n : node) : archive :=
  flat_map (fun '(root, dirs, files) =>
    flat_map (fun '(file, content) =>
      if endswith file ".py" then [(relpath root file, content)] else [])
      files)
    (walk root n).

Lemma zip_entries_Dir root entries name c :
  (name, c) ∈ zip_entries root (Dir entries) <->
  (exists file, (file, File c) ∈ entries /\ endswith file ".py" = true /\
                name = relpath root file) \/
  (exists e, e ∈ entries /\ (name, c) ∈ zip_entries (root ++ [e.1]) e.2).
Proof.
  unfold zip_entries. simpl walk. cbn [flat_map].
  rewrite elem_of_app. apply Morphisms_Prop.or_iff_morphism.
  - rewrite list_elem_of_In, in_flat_map. split.
    + intros [[file c'] [Hin Hy]]. apply list_elem_of_In in Hin.
      apply list_elem_of_omap in Hin as [[f n] [Hin Hf]]. simpl in Hf.
      destruct n; simplify_eq. destruct (endswith file ".py") eqn:E; simpl in Hy; [|done].
      destruct Hy as [Hy|[]]. simplify_eq. eauto.
    + intros (file & Hin & E & ->). exists (file, c). split.
      * apply list_elem_of_In, list_elem_of_omap. by exists (file, File c).
      * rewrite E. by left.
  - rewrite list_elem_of_In, in_flat_map. split.
    + intros [[[r d] f] [Hin Hy]]. apply in_flat_map in Hin as [e [He Hw]].
      exists e. split; [by apply list_elem_of_In|].
      apply list_elem_of_In, in_flat_map. by exists (r, d, f).
    + intros (e & He & Hy). apply list_elem_of_In, in_flat_map in Hy as [[[r d] f] [Hw Hy]].
      exists (r, d, f). split; [|done].
      apply in_flat_map. exists e. split; [by apply list_elem_of_In | done].
Qed.

Lemma zip_entries_spec n : forall root name c,
  (name, c) ∈ zip_entries root n <->
  exists path file, has_file n (path ++ [file]) c /\ endswith file ".py" = true /\
                    name = relpath (root ++ path) file.
Proof.
  induction n as [c0|entries IH] using node_nested_ind; intros root name c.
  - split.
    + unfold zip_entries. simpl. by intros ?%elem_of_nil.
    + intros (path & file & H & _). inversion H.
  - rewrite zip_entries_Dir. split.
    + intros [(file & Hin & E & ->) | (e & He & Hy)].
      * exists [], file. rewrite app_nil_r. simpl. eauto using has_file.
      * rewrite Forall_forall in IH. apply (IH e He) in Hy as (path & file & Hf & E & ->).
        exists (e.1 :: path), file. split_and!; [|done|].
        -- simpl. apply has_file_below with e.2; [by destruct e | done].
        -- by rewrite <- app_assoc.
    + intros (path & file & Hf & E & ->). inversion Hf as [es f c' Hin Heq | es d sub p c' Hin Hsub Heq]; subst.
      * left. destruct path as [|x [|y path]]; simplify_eq/=.
        rewrite app_nil_r. eauto.
      * right. exists (d, sub). split; [done|]. simpl.
        destruct path as [|x path]; simplify_eq/=; [inversion Hsub|].
        rewrite Forall_forall in IH. apply (IH (x, sub) Hin). simpl.
        exists path, file. split_and!; [done..|]. by rewrite <- app_assoc.
Qed.

(** C10. [create_zip] archives exactly the plain files below the source
    directory whose name ends in ['.py'], each under its path relative to the
    source directory; every other file is left out. *)
Theorem create_zip_exactly_py_files (source_dir : node) (name c : string) :
  (name, c) ∈ deploy_backend.create_zip source_dir <->
  exists path file, has_file source_dir (path ++ [file]) c /\
                    endswith file ".py" = true /\ name = relpath path file.
Proof. apply (zip_entries_spec source_dir []). Qed.

Lemma create_zip_exactly_py_files_witness :
  ("quest/teams.py", "TEAMS = {}") ∈ deploy_backend.create_zip sample_backend.
Proof.
  apply (create_zip_exactly_py_files sample_backend).
  exists ["quest"], "teams.py". split_and!; [|reflexivity..].
  apply has_file_below with
    (Dir [("__init__.py", File ""); ("teams.py", File "TEAMS = {}");
          ("data.json", File "{}")]).
  - unfold sample_backend. set_solver.
  - apply has_file_here. set_solver.
Defined.

(** ** The script monad *)

Section MonadFacts.
Context {St : Type}.

Lemma out_res_bind {A B} (m : M St A) (f : A -> M St B) (s : St) :
  out_res ((m ≫= f) s) =
  match out_res (m s) with
  | inl e => inl e
  | inr a => out_res (f a (out_st (m s)))
  end.
Proof.
  unfold mbind, M_bind, bind. destruct (m s) as [s1 l1 [e|a]]; simpl; [done|].
  by destruct (f a s1).
Qed.

Lemma out_log_bind {A B} (m : M St A) (f : A -> M St B) (s : St) :
  out_log ((m ≫= f) s) =
  out_log (m s) ++
  match out_res (m s) with
  | inl e => []
  | inr a => out_log (f a (out_st (m s)))
  end.
Proof.
  unfold mbind, M_bind, bind. destruct (m s) as [s1 l1 [e|a]]; simpl.
  - by rewrite app_nil_r.
  - by destruct (f a s1).
Qed.

Lemma out_st_bind {A B} (m : M St A) (f : A -> M St B) (s : St) :
  out_st ((m ≫= f) s) =
  match out_res (m s) with
  | inl e => out_st (m s)
  | inr a => out_st (f a (out_st (m s)))
  end.
Proof.
  unfold mbind, M_bind, bind. destruct (m s) as [s1 l1 [e|a]]; simpl; [done|].
  by destruct (f a s1).
Qed.

Lemma bind_inr_inv {A B} (m : M St A) (f : A -> M St B) (s : St) (b : B) :
  out_res ((m ≫= f) s) = inr b ->
  exists a, out_res (m s) = inr a /\ out_res (f a (out_st (m s))) = inr b.
Proof. rewrite out_res_bind. destruct (out_res (m s)) as [e|a]; [done | eauto]. Qed.

(** Running a bind whose first computation has a known outcome. *)
Lemma bind_run_inr {A B} (m : M St A) (f : A -> M St B) (s s1 : St) l1 a :
  m s = Outcome s1 l1 (inr a) ->
  (m ≫= f) s =
  Outcome (out_st (f a s1)) (l1 ++ out_log (f a s1)) (out_res (f a s1)).
Proof. intros H. unfold mbind, M_bind, bind. rewrite H. by destruct (f a s1). Qed.

Lemma bind_run_inl {A B} (m : M St A) (f : A -> M St B) (s s1 : St) l1 e :
  m s = Outcome s1 l1 (inl e) ->
  (m ≫= f) s = Outcome s1 l1 (inl e).
Proof. intros H. unfold mbind, M_bind, bind. by rewrite H. Qed.

End MonadFacts.

(** Unfold the monad operations and case on the outcome of each provider
    operation met along the way. *)
Ltac unfold_script :=
  unfold mbind, M_bind, mret, M_ret, bind, ret, try_except, invoke, print, sleep in *.

Ltac case_call :=
  match goal with
  | H : ?x = _ |- context [match ?x with pair _ _ => _ end] => rewrite H
  | |- context [match ?x with pair _ _ => _ end] =>
      let s := fresh "s" in
      let e := fresh "e" in
      let a := fresh "a" in
      let E := fresh "E" in
      destruct x as [s [e|a]] eqn:E
  end.

Ltac case_exn :=
  match goal with
  | H : ?b = _ |- context [if ?b then _ else _] => rewrite H
  | |- context [if is_NoSuchEntity ?e then _ else _] =>
      let E := fresh "E" in destruct (is_NoSuchEntity e) eqn:E
  | |- context [if is_ResourceNotFound ?e then _ else _] =>
      let E := fresh "E" in destruct (is_ResourceNotFound e) eqn:E
  | |- context [if is_ResourceConflict ?e then _ else _] =>
      let E := fresh "E" in destruct (is_ResourceConflict e) eqn:E
  end.

Ltac run_script := unfold_script; simpl; repeat (first [case_call | case_exn]; simpl).

Ltac unfold_calls :=
  unfold deploy_backend.get_role, deploy_backend.create_role,
    deploy_backend.attach_role_policy, deploy_backend.get_function,
    deploy_backend.update_function_code, deploy_backend.update_function_configuration,
    deploy_backend.create_function, deploy_backend.add_permission,
    deploy_backend.get_caller_identity, deploy_backend.get_apis,
    deploy_backend.create_api, deploy_backend.get_integrations,
    deploy_backend.create_integration, deploy_backend.get_routes,
    deploy_backend.create_route, deploy_backend.get_stages,
    deploy_backend.create_stage, setup_dynamodb.dynamodb_create,
    setup_dynamodb.wait_until_exists, setup_dynamodb.update_time_to_live in *.

(** ** Role reconciliation *)

Section RoleStep.
Context {St : Type} (P : provider St).

Lemma get_role_arn_run (role_name : string) (s : St) :
  let probe := iam_get_role P role_name s in
  deploy_backend.get_role_arn P role_name s =
  Outcome probe.1 [ECall (GetRole role_name) (raised_of probe.2)] (probe_result probe.2).
Proof.
  unfold deploy_backend.get_role_arn. unfold_calls. run_script; done.
Qed.

Lemma deployable_step_log_head (fn : string) (ra : option string) (zip : archive)
    (env : str_dict) (s : St) :
  exists tail,
    out_log (deploy_backend.deployable_step P fn ra zip env s) =
    [EPrint ("Checking if function " +:+ fn +:+ " exists...");
     ECall (GetFunction fn) (raised_of (lambda_get_function P fn s).2)] ++ tail.
Proof.
  unfold deploy_backend.deployable_step. unfold_calls.
  run_script; eexists; reflexivity.
Qed.

(** C2 (amended). When [create_role] raises, whatever the reason,
    [create_lambda_role] prints the error and probes for the role exactly
    once more.  It returns the role's ARN if that probe finds the role and
    [None] if the probe reports the role missing; an exception escapes only
    if the probe itself raises something else.  In the [None] case [main]
    goes on to the deployable step. *)
Theorem create_lambda_role_reprobes_once
    (region suffix : string) (backend : node) (s s0 s1 : St) (e0 e : exn) :
  let role_name := "QuestLambdaRole" +:+ suffix in
  iam_get_role P role_name s = (s0, inl e0) ->
  is_NoSuchEntity e0 = true ->
  iam_create_role P role_name deploy_backend.trust_policy s0 = (s1, inl e) ->
  let probe := iam_get_role P role_name s1 in
  let o := deploy_backend.create_lambda_role P role_name s0 in
  (out_log o =
     [EPrint ("Creating IAM Role: " +:+ role_name +:+ "...");
      ECall (CreateRole role_name deploy_backend.trust_policy) (Some e);
      EPrint ("Error creating role: " +:+ exn_str e);
      ECall (GetRole role_name) (raised_of probe.2)] /\
   out_st o = probe.1 /\
   out_res o = probe_result probe.2) /\
  (forall e2, probe.2 = inl e2 -> is_NoSuchEntity e2 = true ->
     out_res (deploy_backend.role_step P suffix s) = inr None /\
     exists r, ECall (GetFunction ("quest-api" +:+ suffix)) r ∈
               out_log (deploy_backend.main P region suffix backend s)).
Proof.
  intros role_name H0 He0 H1 probe o.
  assert (Ho : o = Outcome probe.1
    [EPrint ("Creating IAM Role: " +:+ role_name +:+ "...");
     ECall (CreateRole role_name deploy_backend.trust_policy) (Some e);
     EPrint ("Error creating role: " +:+ exn_str e);
     ECall (GetRole role_name) (raised_of probe.2)] (probe_result probe.2)).
  { subst o probe.
    unfold deploy_backend.create_lambda_role, deploy_backend.get_role_arn. unfold_calls.
    run_script; done. }
  split; [by rewrite Ho|].
  intros e2 Hp He2.
  assert (Hrole : deploy_backend.role_step P suffix s =
                  Outcome probe.1 (ECall (GetRole role_name) (Some e0) :: out_log o) (inr None)).
  { unfold deploy_backend.role_step. fold role_name.
    unfold mbind, M_bind, bind. rewrite get_role_arn_run, H0. simpl.
    rewrite He0. simpl. fold o. rewrite Ho. simpl. rewrite Hp. simpl. by rewrite He2. }
  split; [by rewrite Hrole|].
  unfold deploy_backend.main, deploy_backend.main_locals.
  rewrite out_log_bind, out_log_bind. simpl.
  rewrite out_log_bind, Hrole. simpl.
  rewrite out_log_bind. simpl. rewrite out_log_bind.
  destruct (deployable_step_log_head ("quest-api" +:+ suffix) None
              (deploy_backend.create_zip backend) (deploy_backend.env_vars suffix) probe.1)
    as [tail ->].
  exists (raised_of (lambda_get_function P ("quest-api" +:+ suffix) probe.1).2).
  set_solver.
Qed.

End RoleStep.

Lemma create_lambda_role_reprobes_once_witness :
  out_res (deploy_backend.create_lambda_role denied_clients "QuestLambdaRole-dev" Cloud.empty)
    = inr None /\
  out_res (deploy_backend.role_step denied_clients "-dev" Cloud.empty) = inr None.
Proof.
  destruct (create_lambda_role_reprobes_once denied_clients "us-east-1" "-dev" sample_backend
              Cloud.empty Cloud.empty Cloud.empty Cloud.no_such_entity access_denied)
    as [(_ & _ & H1) H2]; [reflexivity..|].
  split; [exact H1|].
  apply (H2 Cloud.no_such_entity); reflexivity.
Defined.

(** C2 (as stated) fails: with the function already deployed and the role
    missing, a denied [create_role] followed by a re-probe that finds nothing
    is not fatal.  [create_lambda_role] yields [None] and the run goes on to
    update the function, set up the gateway and finish successfully. *)
Lemma create_role_failure_not_fatal :
  take 5 (out_log (deploy_backend.main denied_clients "us-east-1" "-dev" sample_backend
                     function_without_role)) =
    [EPrint "Deploying to us-east-1 with suffix '-dev'";
     ECall (GetRole "QuestLambdaRole-dev") (Some Cloud.no_such_entity);
     EPrint "Creating IAM Role: QuestLambdaRole-dev...";
     ECall (CreateRole "QuestLambdaRole-dev" deploy_backend.trust_policy) (Some access_denied);
     EPrint ("Error creating role: " +:+ exn_str access_denied)] /\
  match out_res (deploy_backend.main_locals denied_clients "us-east-1" "-dev" sample_backend
                   function_without_role) with
  | inr loc => deploy_backend.l_role_arn loc = None
  | inl _ => False
  end /\
  out_res (deploy_backend.main denied_clients "us-east-1" "-dev" sample_backend
             function_without_role) = inr tt.
Proof. vm_compute. done. Qed.

(** ** Invocation permission *)

Lemma permission_step_cloud (region fn api_id : string) (s : Cloud.cloud)
    (f : Cloud.function_rec) :
  Cloud.functions s !! fn = Some f ->
  let sid := "apigateway-invoke-" +:+ api_id in
  let o := deploy_backend.permission_step (Cloud.clients region) region fn api_id s in
  out_res o = inr tt /\
  (exists f', Cloud.functions (out_st o) !! fn = Some f' /\
              sid ∈ Cloud.p_sid <$> Cloud.f_permissions f' /\
              Cloud.f_arn f' = Cloud.f_arn f /\ Cloud.f_role f' = Cloud.f_role f /\
              Cloud.f_code f' = Cloud.f_code f /\ Cloud.f_env f' = Cloud.f_env f) /\
  (forall fn', fn' <> fn ->
     Cloud.functions (out_st o) !! fn' = Cloud.functions s !! fn') /\
  Cloud.roles (out_st o) = Cloud.roles s /\
  Cloud.apis (out_st o) = Cloud.apis s /\
  Cloud.tables (out_st o) = Cloud.tables s /\
  Forall (fun ev => forall c r, ev = ECall c r ->
            c = GetCallerIdentity \/ exists a b c' d, c = AddPermission fn a b c' d)
    (out_log o) /\
  (sid ∈ Cloud.p_sid <$> Cloud.f_permissions f ->
     out_st o = s /\
     exists c, out_log o =
       [ECall GetCallerIdentity None;
        ECall c (Some (Cloud.function_conflict "AddPermission"));
        EPrint "Permission already exists."]).
Proof.
  intros Hf sid o. subst o.
  unfold deploy_backend.permission_step. unfold_calls. unfold_script. simpl.
  unfold Cloud.add_permission. rewrite Hf. fold sid.
  case_bool_decide as Hin; simpl.
  - split_and!; try done.
    + by exists f.
    + rewrite ?Forall_cons, Forall_nil. split_and!; try done; intros c r ?; simplify_eq; eauto 10.
    + intros _. split; [done|]. by eexists.
  - split_and!; try done.
    + eexists. rewrite lookup_insert_eq. split; [done|]. simpl.
      rewrite fmap_app. set_solver.
    + intros fn' Hne. by rewrite lookup_insert_ne.
    + rewrite ?Forall_cons, Forall_nil. split_and!; try done; intros c r ?; simplify_eq; eauto 10.
Qed.

(** C4. The permission step absorbs exactly the conflict response: when
    [add_permission] (or the identity query evaluated for its arguments)
    raises, the step succeeds if the exception is a
    [ResourceConflictException] and lets any other exception escape.  On the
    reference provider, granting twice with the same parameters to an
    existing function succeeds both times, the second grant meeting the
    conflict and leaving the provider unchanged. *)
Theorem permission_step_conflict_tolerant :
  (forall St (P : provider St) (region fn api_id : string) (s s1 s2 : St)
          (account : string) (e : exn),
     sts_get_caller_identity P s = (s1, inr account) ->
     lambda_add_permission P fn ("apigateway-invoke-" +:+ api_id)
       "lambda:InvokeFunction" "apigateway.amazonaws.com"
       ("arn:aws:execute-api:" +:+ region +:+ ":" +:+ account +:+ ":" +:+ api_id +:+ "/*/*")
       s1 = (s2, inl e) ->
     out_res (deploy_backend.permission_step P region fn api_id s) =
       if is_ResourceConflict e then inr tt else inl e) /\
  (forall St (P : provider St) (region fn api_id : string) (s s1 : St) (e : exn),
     sts_get_caller_identity P s = (s1, inl e) ->
     out_res (deploy_backend.permission_step P region fn api_id s) =
       if is_ResourceConflict e then inr tt else inl e) /\
  (forall (region fn api_id : string) (s : Cloud.cloud),
     is_Some (Cloud.functions s !! fn) ->
     let step := deploy_backend.permission_step (Cloud.clients region) region fn api_id in
     out_res (step s) = inr tt /\
     out_res (step (out_st (step s))) = inr tt /\
     out_st (step (out_st (step s))) = out_st (step s) /\
     exists c, out_log (step (out_st (step s))) =
       [ECall GetCallerIdentity None;
        ECall c (Some (Cloud.function_conflict "AddPermission"));
        EPrint "Permission already exists."]).
Proof.
  split_and!.
  - intros St P region fn api_id s s1 s2 account e H1 H2.
    unfold deploy_backend.permission_step. unfold_calls. run_script; done.
  - intros St P region fn api_id s s1 e H1.
    unfold deploy_backend.permission_step. unfold_calls. run_script; done.
  - intros region fn api_id s [f Hf] step. subst step.
    destruct (permission_step_cloud region fn api_id s f Hf)
      as (H1 & (f' & Hf' & Hin & _) & _).
    destruct (permission_step_cloud region fn api_id _ f' Hf')
      as (H2 & _ & _ & _ & _ & _ & _ & H3).
    destruct (H3 Hin) as [H4 H5]. done.
Qed.

Lemma permission_step_conflict_tolerant_witness :
  let step := deploy_backend.permission_step (Cloud.clients "us-east-1") "us-east-1"
                "quest-api-dev" "api0" in
  out_res (step function_without_role) = inr tt /\
  out_res (step (out_st (step function_without_role))) = inr tt.
Proof.
  destruct permission_step_conflict_tolerant as (_ & _ & H).
  destruct (H "us-east-1" "quest-api-dev" "api0" function_without_role) as (H1 & H2 & _).
  - vm_compute. eauto.
  - split; [exact H1 | exact H2].
Defined.

(** ** Gateway integration *)

(** C5 (amended). The integration step lists the integrations of the entry
    point and takes the first one whose [IntegrationUri] (the empty string if
    absent) contains the substring ['quest-api'], whatever function it
    targets.  If there is one, with a non-empty identifier, that identifier is
    used and nothing is created; otherwise an [AWS_PROXY] integration
    targeting the ARN that [get_function] returned for this run's function is
    created. *)
Theorem integration_step_matches_by_substring {St : Type} (P : provider St)
    (api_id function_name : string) (s s1 s2 : St)
    (items : list integration_item) (lambda_arn : string) :
  apigw_get_integrations P api_id s = (s1, inr items) ->
  lambda_get_function P function_name s1 = (s2, inr lambda_arn) ->
  let o := deploy_backend.integration_step P api_id function_name s in
  let found :=
    List.find (fun i => str_in "quest-api" (default "" (IntegrationUri i))) items in
  let create := apigw_create_integration P api_id "AWS_PROXY" lambda_arn "2.0" s2 in
  (forall i, found = Some i -> IntegrationId i <> "" ->
     o = Outcome s2
           [ECall (GetIntegrations api_id) None; ECall (GetFunction function_name) None]
           (inr (IntegrationId i, lambda_arn))) /\
  (found = None \/ (exists i, found = Some i /\ IntegrationId i = "") ->
     o = Outcome create.1
           [ECall (GetIntegrations api_id) None; ECall (GetFunction function_name) None;
            EPrint "Creating Integration...";
            ECall (CreateIntegration api_id "AWS_PROXY" lambda_arn "2.0")
              (raised_of create.2)]
           (match create.2 with
            | inl e => inl e
            | inr integration_id => inr (integration_id, lambda_arn)
            end)).
Proof.
  intros H1 H2 o found create. subst o create found.
  unfold deploy_backend.integration_step, next_or_None, deploy_backend.integration_matches.
  unfold_calls.
  split.
  - intros i Hi Hne. unfold_script. simpl. rewrite H1. simpl.
    rewrite H2. simpl. rewrite Hi. simpl. by rewrite bool_decide_false.
  - intros Hnone.
    assert (Hfalsy : truthy (IntegrationId <$>
              List.find (fun i => str_in "quest-api" (default "" (IntegrationUri i))) items)
            = false).
    { destruct Hnone as [-> | (i & -> & Hi)]; [done|]. simpl. by rewrite Hi. }
    unfold_script. simpl. rewrite H1. simpl. rewrite H2. simpl. rewrite Hfalsy. simpl.
    by destruct (apigw_create_integration P api_id "AWS_PROXY" lambda_arn "2.0" s2)
      as [s3 [e|a]].
Qed.

Lemma integration_step_matches_by_substring_witness :
  deploy_backend.integration_step (Cloud.clients "us-east-1") "api0" "quest-api-dev"
    foreign_integration =
  Outcome foreign_integration
    [ECall (GetIntegrations "api0") None; ECall (GetFunction "quest-api-dev") None]
    (inr ("int0", "arn:aws:lambda:us-east-1:123456789012:function:quest-api-dev")).
Proof.
  refine (proj1 (integration_step_matches_by_substring (Cloud.clients "us-east-1")
            "api0" "quest-api-dev" foreign_integration foreign_integration foreign_integration
            [IntegrationItem "int0"
               (Some "arn:aws:lambda:us-east-1:123456789012:function:quest-api-stage")]
            "arn:aws:lambda:us-east-1:123456789012:function:quest-api-dev" _ _)
            (IntegrationItem "int0"
               (Some "arn:aws:lambda:us-east-1:123456789012:function:quest-api-stage")) _ _);
    [reflexivity | reflexivity | reflexivity | discriminate].
Defined.

(** C5 (as stated) fails: an integration whose target is the function of the
    [-stage] environment counts as a match for the [-dev] run, which reuses
    it and creates no integration for its own function. *)
Lemma integration_match_ignores_target :
  deploy_backend.integration_matches
    (IntegrationItem "int0" (Some (Cloud.function_arn_of "us-east-1" "quest-api-stage")))
    = true /\
  Cloud.function_arn_of "us-east-1" "quest-api-stage" <>
    Cloud.function_arn_of "us-east-1" "quest-api-dev" /\
  deploy_backend.integration_step (Cloud.clients "us-east-1") "api0" "quest-api-dev"
    foreign_integration =
  Outcome foreign_integration
    [ECall (GetIntegrations "api0") None; ECall (GetFunction "quest-api-dev") None]
    (inr ("int0", Cloud.function_arn_of "us-east-1" "quest-api-dev")).
Proof. split_and!; [reflexivity | discriminate | reflexivity]. Qed.

(** ** The reported endpoint *)

Lemma bind_inr_inv_log {St A B} (m : M St A) (f : A -> M St B) (s : St) (b : B) :
  out_res ((m ≫= f) s) = inr b ->
  exists a, out_res (m s) = inr a /\ out_res (f a (out_st (m s))) = inr b /\
            out_log ((m ≫= f) s) = out_log (m s) ++ out_log (f a (out_st (m s))).
Proof.
  rewrite out_res_bind, out_log_bind.
  destruct (out_res (m s)) as [e|a]; [done | eauto].
Qed.

Lemma main_locals_success {St : Type} (P : provider St) (region suffix : string)
    (backend : node) (s : St) (loc : deploy_backend.locals) :
  out_res (deploy_backend.main_locals P region suffix backend s) = inr loc ->
  deploy_backend.l_endpoint loc =
    deploy_backend.endpoint_of (deploy_backend.l_api_id loc) region /\
  EPrint ("API Endpoint: " +:+ deploy_backend.l_endpoint loc) ∈
    out_log (deploy_backend.main_locals P region suffix backend s).
Proof.
  unfold deploy_backend.main_locals. intros H.
  repeat match type of H with
  | out_res ((_ ≫= _) _) = inr _ =>
      let a := fresh "a" in
      let Ha := fresh "Ha" in
      let Hl := fresh "Hl" in
      apply bind_inr_inv_log in H as (a & Ha & H & Hl); rewrite Hl; clear Hl
  | out_res (match ?x with pair _ _ => _ end _) = inr _ => destruct x
  end.
  simpl in H. inversion H; subst; clear H. simpl. split; [done|].
  repeat first [rewrite elem_of_cons | rewrite elem_of_app].
  repeat first [by left | right].
Qed.

(** C9 (amended). On success [main] prints, and does not return, an endpoint
    of the form [https://{api_id}.execute-api.{region}.amazonaws.com], built
    from the entry-point identifier the run resolved and the region only: two
    successful runs that resolve the same identifier in the same region
    report the same endpoint. *)
Theorem endpoint_determined_by_api_id_and_region {St1 St2 : Type}
    (P1 : provider St1) (P2 : provider St2) (region suffix1 suffix2 : string)
    (backend1 backend2 : node) (s1 : St1) (s2 : St2) (loc1 loc2 : deploy_backend.locals) :
  out_res (deploy_backend.main_locals P1 region suffix1 backend1 s1) = inr loc1 ->
  out_res (deploy_backend.main_locals P2 region suffix2 backend2 s2) = inr loc2 ->
  deploy_backend.l_endpoint loc1 =
    "https://" +:+ deploy_backend.l_api_id loc1 +:+ ".execute-api." +:+ region +:+
    ".amazonaws.com" /\
  EPrint ("API Endpoint: " +:+ deploy_backend.l_endpoint loc1) ∈
    out_log (deploy_backend.main P1 region suffix1 backend1 s1) /\
  out_res (deploy_backend.main P1 region suffix1 backend1 s1) = inr tt /\
  (deploy_backend.l_api_id loc1 = deploy_backend.l_api_id loc2 ->
   deploy_backend.l_endpoint loc1 = deploy_backend.l_endpoint loc2).
Proof.
  intros H1 H2.
  destruct (main_locals_success P1 region suffix1 backend1 s1 loc1 H1) as [E1 L1].
  destruct (main_locals_success P2 region suffix2 backend2 s2 loc2 H2) as [E2 _].
  split_and!.
  - exact E1.
  - unfold deploy_backend.main. rewrite out_log_bind, H1. simpl. by rewrite app_nil_r.
  - unfold deploy_backend.main. by rewrite out_res_bind, H1.
  - intros E. by rewrite E1, E2, E.
Qed.

Lemma endpoint_determined_by_api_id_and_region_witness :
  EPrint "API Endpoint: https://api0.execute-api.us-east-1.amazonaws.com" ∈
    out_log (deploy_backend.main (Cloud.clients "us-east-1") "us-east-1" "-dev"
               sample_backend Cloud.empty).
Proof.
  refine (proj1 (proj2 (endpoint_determined_by_api_id_and_region
            (Cloud.clients "us-east-1") (Cloud.clients "us-east-1") "us-east-1" "-dev" "-dev"
            sample_backend sample_backend Cloud.empty Cloud.empty
            (deploy_backend.Locals
               (Some "arn:aws:iam::123456789012:role/QuestLambdaRole-dev")
               "arn:aws:lambda:us-east-1:123456789012:function:quest-api-dev"
               "api0" "int0" "https://api0.execute-api.us-east-1.amazonaws.com")
            (deploy_backend.Locals
               (Some "arn:aws:iam::123456789012:role/QuestLambdaRole-dev")
               "arn:aws:lambda:us-east-1:123456789012:function:quest-api-dev"
               "api0" "int0" "https://api0.execute-api.us-east-1.amazonaws.com")
            _ _))); vm_compute; reflexivity.
Defined.

(** C9 (as stated) fails: the endpoint of a fresh [-dev] deployment in
    [us-east-1] is not of the form
    [https://{entryPointId}.{region}.example-provider.net], and [main]
    returns [None]. *)
Lemma endpoint_not_of_claimed_form :
  match out_res (deploy_backend.main_locals (Cloud.clients "us-east-1") "us-east-1" "-dev"
                   sample_backend Cloud.empty) with
  | inr loc =>
      deploy_backend.l_api_id loc = "api0" /\
      deploy_backend.l_endpoint loc = "https://api0.execute-api.us-east-1.amazonaws.com" /\
      deploy_backend.l_endpoint loc <>
        "https://" +:+ deploy_backend.l_api_id loc +:+ "." +:+ "us-east-1" +:+
        ".example-provider.net"
  | inl _ => False
  end /\
  out_res (deploy_backend.main (Cloud.clients "us-east-1") "us-east-1" "-dev"
             sample_backend Cloud.empty) = inr tt.
Proof. vm_compute. split_and!; try reflexivity. discriminate. Qed.

(** ** Propagation of provider errors *)

Lemma absorbed_mono (b : bool) (c : call) (e : exn) :
  absorbed true c e = true -> absorbed b c e = true.
Proof. destruct c; simpl; try done. rewrite andb_false_r. done. Qed.

Lemma propagates_mono (b : bool) (log : list event) (raised : option exn) :
  propagates true log raised -> propagates b log raised.
Proof.
  revert b. induction log as [|ev log IH]; intros b; simpl; [done|].
  intros [H1 H2]. split.
  - destruct ev as [c [e|]| |]; try done.
    destruct H1 as [H1|H1]; [left; by apply absorbed_mono | by right].
  - by apply IH.
Qed.

Lemma propagates_app (b : bool) (l1 l2 : list event) (raised : option exn) :
  propagates b l1 None -> propagates (b || existsb gateway_event l1) l2 raised ->
  propagates b (l1 ++ l2) raised.
Proof.
  revert b. induction l1 as [|ev l1 IH]; intros b; simpl.
  - by rewrite orb_false_r.
  - intros [H1 H2] H3. split.
    + destruct ev as [c [e|]| |]; try done. destruct H1 as [H1 | [_ ?]]; [by left | done].
    + apply IH; [done|]. by rewrite <-orb_assoc.
Qed.

Lemma propagates_spec (b : bool) (log : list event) (raised : option exn) :
  propagates b log raised ->
  forall pre c e post, log = pre ++ ECall c (Some e) :: post ->
    absorbed (b || existsb gateway_event pre) c e = false -> post = [] /\ raised = Some e.
Proof.
  intros H pre. revert b log H.
  induction pre as [|ev pre IH]; intros b log H c e post -> Hc; simpl in *.
  - rewrite orb_false_r in Hc. destruct H as [[Ha | ?] _]; [congruence | done].
  - destruct H as [_ H].
    apply (IH _ _ H c e post eq_refl). by rewrite <-orb_assoc.
Qed.

Lemma faithful_mono {St A} (b : bool) (o : outcome St A) : faithful true o -> faithful b o.
Proof. apply propagates_mono. Qed.

Lemma faithful_bind {St A B} (b : bool) (m : M St A) (f : A -> M St B) (s : St) :
  faithful b (m s) ->
  (forall a s', faithful (b || existsb gateway_event (out_log (m s))) (f a s')) ->
  faithful b ((m ≫= f) s).
Proof.
  unfold faithful. intros Hm Hf. rewrite out_log_bind, out_res_bind.
  destruct (out_res (m s)) as [e|a] eqn:E; simpl in *.
  - by rewrite app_nil_r.
  - by apply propagates_app.
Qed.

Lemma faithful_print {St} (b : bool) (line : string) (s : St) : faithful b (print line s).
Proof. done. Qed.

Lemma faithful_ret {St A} (b : bool) (a : A) (s : St) : faithful b ((mret a : M St A) s).
Proof. done. Qed.

(** Close a goal [propagates b log raised] on an explicit log. *)
Ltac close_propagates :=
  unfold faithful; simpl;
  repeat match goal with
  | |- _ /\ _ => split
  | |- True => exact I
  | |- _ \/ _ => first [right; done | left; first [done | assumption | by rewrite andb_true_r]]
  end.

(** Explore every path of a step: each provider call, each exception test
    and each remaining conditional. *)
Ltac explore :=
  run_script;
  repeat (match goal with
          | |- context [if ?b then _ else _] => let E := fresh "E" in destruct b eqn:E
          end; simpl; repeat (first [case_call | case_exn]; simpl)).

Section Propagation.
Context {St : Type} (P : provider St).

Lemma faithful_role_step b suffix s : faithful b (deploy_backend.role_step P suffix s).
Proof.
  unfold deploy_backend.role_step, deploy_backend.create_lambda_role,
    deploy_backend.get_role_arn. unfold_calls.
  explore; close_propagates.
Qed.

Lemma role_step_no_gateway suffix s :
  existsb gateway_event (out_log (deploy_backend.role_step P suffix s)) = false.
Proof.
  unfold deploy_backend.role_step, deploy_backend.create_lambda_role,
    deploy_backend.get_role_arn. unfold_calls.
  explore; done.
Qed.

Lemma faithful_deployable_step fn ra zip env s :
  faithful false (deploy_backend.deployable_step P fn ra zip env s).
Proof. unfold deploy_backend.deployable_step. unfold_calls. explore; close_propagates. Qed.

Lemma faithful_api_step name s : faithful true (deploy_backend.api_step P name s).
Proof.
  unfold deploy_backend.api_step, next_or_None. unfold_calls. explore; close_propagates.
Qed.

Lemma faithful_integration_step api_id fn s :
  faithful true (deploy_backend.integration_step P api_id fn s).
Proof.
  unfold deploy_backend.integration_step, next_or_None. unfold_calls.
  explore; close_propagates.
Qed.

Lemma faithful_route_step api_id integration_id s :
  faithful true (deploy_backend.route_step P api_id integration_id s).
Proof. unfold deploy_backend.route_step. unfold_calls. explore; close_propagates. Qed.

Lemma faithful_stage_step api_id s : faithful true (deploy_backend.stage_step P api_id s).
Proof. unfold deploy_backend.stage_step. unfold_calls. explore; close_propagates. Qed.

Lemma faithful_permission_step region fn api_id s :
  faithful true (deploy_backend.permission_step P region fn api_id s).
Proof. unfold deploy_backend.permission_step. unfold_calls. explore; close_propagates. Qed.

Lemma faithful_main region suffix backend s :
  faithful false (deploy_backend.main P region suffix backend s).
Proof.
  unfold deploy_backend.main, deploy_backend.main_locals.
  apply faithful_bind; [|intros; apply faithful_ret].
  apply faithful_bind; [apply faithful_print|]. intros [] s0. simpl.
  apply faithful_bind; [apply faithful_role_step|]. intros role_arn s1.
  rewrite role_step_no_gateway. simpl.
  apply faithful_bind; [apply faithful_print|]. intros [] s2. simpl.
  apply faithful_bind; [apply faithful_deployable_step|]. intros [] s3.
  apply faithful_mono.
  repeat first
    [ apply faithful_print | apply faithful_ret
    | apply faithful_api_step | apply faithful_integration_step
    | apply faithful_route_step | apply faithful_stage_step
    | apply faithful_permission_step
    | apply (faithful_bind true); [| intros [] ? || intros ? ?] ].
Qed.

Lemma create_table_run table_name key_schema attribute_definitions s :
  out_res (setup_dynamodb.create_table P table_name key_schema attribute_definitions s)
    = inr tt /\
  exists tail,
    out_log (setup_dynamodb.create_table P table_name key_schema attribute_definitions s) =
    ECall (CreateTable table_name key_schema attribute_definitions "PAY_PER_REQUEST")
      (raised_of (dynamodb_create_table P table_name key_schema attribute_definitions
                    "PAY_PER_REQUEST" s).2) :: tail.
Proof.
  unfold setup_dynamodb.create_table. unfold_calls.
  explore; repeat match goal with u : unit |- _ => destruct u end; eauto.
Qed.

End Propagation.




(** ** Order of the steps *)

Lemma log_Forall_bind {St A B} (Q : event -> Prop) (m : M St A) (f : A -> M St B) (s : St) :
  Forall Q (out_log (m s)) ->
  (forall a, out_res (m s) = inr a -> Forall Q (out_log (f a (out_st (m s))))) ->
  Forall Q (out_log ((m ≫= f) s)).
Proof.
  intros Hm Hf. rewrite out_log_bind. apply Forall_app. split; [done|].
  destruct (out_res (m s)) as [e|a]; [done | by apply Hf].
Qed.

Lemma looked_up_mono fn seen log : looked_up fn seen log -> looked_up fn true log.
Proof.
  revert seen. induction log as [|[c r| |] log IH]; intros seen; simpl; eauto.
  destruct c; eauto; try (destruct r; simpl; eauto); intros [_ H]; eauto.
Qed.

Lemma looked_up_app fn seen l1 l2 :
  looked_up fn seen l1 -> looked_up fn false l2 -> looked_up fn seen (l1 ++ l2).
Proof.
  revert seen. induction l1 as [|ev l1 IH]; intros seen H1 H2; simpl in *.
  - destruct seen; eauto using looked_up_mono.
  - destruct ev as [c r| |]; eauto. destruct c; eauto.
    + destruct r; eauto.
    + destruct H1 as [-> H1]. split; eauto.
Qed.

Lemma looked_up_spec fn seen log :
  looked_up fn seen log ->
  forall pre api ty uri pv r post,
    log = pre ++ ECall (CreateIntegration api ty uri pv) r :: post ->
    seen = true \/ ECall (GetFunction fn) None ∈ pre.
Proof.
  intros H pre. revert seen log H.
  induction pre as [|ev pre IH]; intros seen log H api ty uri pv r post ->; simpl in H.
  - left. tauto.
  - destruct ev as [c r'| |];
      try (destruct (IH _ _ H api ty uri pv r post eq_refl); [by left | right; set_solver]).
    destruct c;
      try (destruct (IH _ _ H api ty uri pv r post eq_refl); [by left | right; set_solver]).
    + destruct r' as [e|].
      * destruct (IH _ _ H api ty uri pv r post eq_refl); [by left | right; set_solver].
      * destruct (IH _ _ H api ty uri pv r post eq_refl) as [Hs | ?]; [|right; set_solver].
        apply orb_true_iff in Hs as [-> | Hs]; [by left|].
        apply bool_decide_eq_true in Hs as ->. right. set_solver.
    + destruct H as [-> _]. by left.
Qed.

Lemma looked_up_bind {St A B} fn (m : M St A) (f : A -> M St B) (s : St) :
  looked_up fn false (out_log (m s)) ->
  (forall a s', looked_up fn false (out_log (f a s'))) ->
  looked_up fn false (out_log ((m ≫= f) s)).
Proof.
  intros Hm Hf. rewrite out_log_bind. apply looked_up_app; [done|].
  destruct (out_res (m s)); [done | apply Hf].
Qed.

Ltac close_Forall :=
  simpl; rewrite ?Forall_cons, ?Forall_nil; simpl; repeat split; try done.

Section StepOrder.
Context {St : Type} (P : provider St).

Lemma role_step_iam_only suffix s :
  Forall iam_only (out_log (deploy_backend.role_step P suffix s)).
Proof.
  unfold deploy_backend.role_step, deploy_backend.create_lambda_role,
    deploy_backend.get_role_arn. unfold_calls.
  explore; close_Forall.
Qed.

Lemma deployable_step_role_passed fn ra zip env s :
  Forall (role_passed ra) (out_log (deploy_backend.deployable_step P fn ra zip env s)).
Proof. unfold deploy_backend.deployable_step. unfold_calls. explore; close_Forall. Qed.

Lemma api_step_role_passed ra name s :
  Forall (role_passed ra) (out_log (deploy_backend.api_step P name s)).
Proof.
  unfold deploy_backend.api_step, next_or_None. unfold_calls. explore; close_Forall.
Qed.

Lemma integration_step_role_passed ra api_id fn s :
  Forall (role_passed ra) (out_log (deploy_backend.integration_step P api_id fn s)).
Proof.
  unfold deploy_backend.integration_step, next_or_None. unfold_calls.
  explore; close_Forall.
Qed.

Lemma route_step_role_passed ra api_id integration_id s :
  Forall (role_passed ra) (out_log (deploy_backend.route_step P api_id integration_id s)).
Proof. unfold deploy_backend.route_step. unfold_calls. explore; close_Forall. Qed.

Lemma stage_step_role_passed ra api_id s :
  Forall (role_passed ra) (out_log (deploy_backend.stage_step P api_id s)).
Proof. unfold deploy_backend.stage_step. unfold_calls. explore; close_Forall. Qed.

Lemma permission_step_role_passed ra region fn api_id s :
  Forall (role_passed ra) (out_log (deploy_backend.permission_step P region fn api_id s)).
Proof. unfold deploy_backend.permission_step. unfold_calls. explore; close_Forall. Qed.

End StepOrder.
Ltac close_looked_up :=
  simpl; rewrite ?bool_decide_eq_true_2 by done; simpl; repeat split; done.

Section LookedUp.
Context {St : Type} (P : provider St) (fn : string).

Lemma role_step_looked_up suffix s :
  looked_up fn false (out_log (deploy_backend.role_step P suffix s)).
Proof.
  unfold deploy_backend.role_step, deploy_backend.create_lambda_role,
    deploy_backend.get_role_arn. unfold_calls.
  explore; close_looked_up.
Qed.

Lemma deployable_step_looked_up ra zip env s :
  looked_up fn false (out_log (deploy_backend.deployable_step P fn ra zip env s)).
Proof. unfold deploy_backend.deployable_step. unfold_calls. explore; close_looked_up. Qed.

Lemma api_step_looked_up name s :
  looked_up fn false (out_log (deploy_backend.api_step P name s)).
Proof.
  unfold deploy_backend.api_step, next_or_None. unfold_calls. explore; close_looked_up.
Qed.

Lemma integration_step_looked_up api_id s :
  looked_up fn false (out_log (deploy_backend.integration_step P api_id fn s)).
Proof.
  unfold deploy_backend.integration_step, next_or_None. unfold_calls.
  explore; close_looked_up.
Qed.

Lemma route_step_looked_up api_id integration_id s :
  looked_up fn false (out_log (deploy_backend.route_step P api_id integration_id s)).
Proof. unfold deploy_backend.route_step. unfold_calls. explore; close_looked_up. Qed.

Lemma stage_step_looked_up api_id s :
  looked_up fn false (out_log (deploy_backend.stage_step P api_id s)).
Proof. unfold deploy_backend.stage_step. unfold_calls. explore; close_looked_up. Qed.

Lemma permission_step_looked_up region api_id s :
  looked_up fn false (out_log (deploy_backend.permission_step P region fn api_id s)).
Proof. unfold deploy_backend.permission_step. unfold_calls. explore; close_looked_up. Qed.

End LookedUp.

Lemma main_log {St : Type} (P : provider St) (region suffix : string) (backend : node)
    (s : St) :
  out_log (deploy_backend.main P region suffix backend s) =
  out_log (deploy_backend.main_locals P region suffix backend s).
Proof.
  unfold deploy_backend.main. rewrite out_log_bind.
  destruct (out_res _); simpl; by rewrite app_nil_r.
Qed.

(** C8 (amended). The steps after the role step run only once the role step
    has returned without raising, and every function creation passes what it
    returned as the role: a role ARN, or [None] when role creation failed and
    the re-probe found nothing.  An integration is created only after the
    lookup of this run's function has succeeded. *)
Theorem steps_run_after_their_dependencies {St : Type} (P : provider St)
    (region suffix : string) (backend : node) (s : St) :
  (forall c r,
     ECall c r ∈ out_log (deploy_backend.main P region suffix backend s) ->
     iam_call c = false ->
     exists role_arn,
       out_res (deploy_backend.role_step P suffix s) = inr role_arn /\
       forall fn rt role h z env t, c = CreateFunction fn rt role h z env t -> role = role_arn) /\
  (forall pre api ty uri pv r post,
     out_log (deploy_backend.main P region suffix backend s) =
       pre ++ ECall (CreateIntegration api ty uri pv) r :: post ->
     ECall (GetFunction ("quest-api" +:+ suffix)) None ∈ pre).
Proof.
  split.
  - intros c r Hin Hc.
    rewrite main_log in Hin. unfold deploy_backend.main_locals in Hin.
    rewrite out_log_bind in Hin. simpl in Hin. rewrite out_log_bind in Hin.
    apply elem_of_cons in Hin as [? | Hin]; [done|].
    apply elem_of_app in Hin as [Hin | Hin].
    { pose proof (role_step_iam_only P suffix s) as Hiam.
      rewrite Forall_forall in Hiam. apply Hiam in Hin. simpl in Hin. congruence. }
    destruct (out_res (deploy_backend.role_step P suffix s)) as [e|role_arn];
      [by apply elem_of_nil in Hin|].
    exists role_arn. split; [done|]. intros fn rt role h z env t ->.
    assert (Hall : Forall (role_passed role_arn)
              (out_log ((print "Zipping backend code...";;
                  deploy_backend.deployable_step P ("quest-api" +:+ suffix) role_arn
                    (deploy_backend.create_zip backend) (deploy_backend.env_vars suffix);;
                  api_id ← deploy_backend.api_step P ("quest-api-gateway" +:+ suffix);
                  '(integration_id, lambda_arn) ←
                    deploy_backend.integration_step P api_id ("quest-api" +:+ suffix);
                  deploy_backend.route_step P api_id integration_id;;
                  deploy_backend.stage_step P api_id;;
                  deploy_backend.permission_step P region ("quest-api" +:+ suffix) api_id;;
                  print (deploy_backend.newline +:+ deploy_backend.rule);;
                  print "DEPLOYMENT COMPLETE";;
                  print ("API Endpoint: " +:+ deploy_backend.endpoint_of api_id region);;
                  print deploy_backend.rule;;
                  mret (deploy_backend.Locals role_arn lambda_arn api_id integration_id
                          (deploy_backend.endpoint_of api_id region)))
                 (out_st (deploy_backend.role_step P suffix s))))).
    { repeat first
        [ apply deployable_step_role_passed | apply api_step_role_passed
        | apply integration_step_role_passed | apply route_step_role_passed
        | apply stage_step_role_passed | apply permission_step_role_passed
        | apply log_Forall_bind; [| intros [] ? || intros ? ?]
        | by (simpl; rewrite ?Forall_cons, ?Forall_nil) ]. }
    rewrite Forall_forall in Hall. by apply Hall in Hin.
  - intros pre api ty uri pv r post Hlog.
    assert (Hl : looked_up ("quest-api" +:+ suffix) false
                   (out_log (deploy_backend.main P region suffix backend s))).
    { rewrite main_log. unfold deploy_backend.main_locals.
      repeat first
        [ apply role_step_looked_up | apply deployable_step_looked_up
        | apply api_step_looked_up | apply integration_step_looked_up
        | apply route_step_looked_up | apply stage_step_looked_up
        | apply permission_step_looked_up
        | apply looked_up_bind; [| intros [] ? || intros ? ?]
        | done ]. }
    by destruct (looked_up_spec _ _ _ Hl pre api ty uri pv r post Hlog).
Qed.

Lemma steps_run_after_their_dependencies_witness :
  exists role_arn,
    out_res (deploy_backend.role_step (Cloud.clients "us-east-1") "-dev" Cloud.empty)
      = inr role_arn.
Proof.
  destruct (proj1 (steps_run_after_their_dependencies (Cloud.clients "us-east-1")
              "us-east-1" "-dev" sample_backend Cloud.empty) GetApis None)
    as [role_arn [H _]].
  - apply list_elem_of_In. vm_compute. repeat first [left; reflexivity | right].
  - reflexivity.
  - exists role_arn. exact H.
Defined.

(** C8 (as stated) fails: when role creation is denied and the re-probe finds
    no role, the role step returns [None] and the deployable step still runs,
    calling [create_function] with no role. *)
Lemma deployable_step_runs_without_role :
  out_res (deploy_backend.role_step denied_clients "-dev" Cloud.empty) = inr None /\
  out_log (deploy_backend.main denied_clients "us-east-1" "-dev" sample_backend Cloud.empty)
    !! 10%nat =
  Some (ECall
          (CreateFunction "quest-api-dev" "python3.9" None "lambda_function.lambda_handler"
             (deploy_backend.create_zip sample_backend) (deploy_backend.env_vars "-dev") 15)
          (Some (Exn (ClientError "ParamValidationError")
                   "Parameter validation failed: Invalid type for parameter Role"))).
Proof. split; vm_compute; reflexivity. Qed.

(** * Further properties of the scripts *)

(** ** [get_role_arn] and [create_lambda_role] *)

Section RoleFunctions.
Context {St : Type} (P : provider St).

(** X1. [get_role_arn] makes exactly one [get_role] call.  It yields [None]
    exactly when that call raises [NoSuchEntityException], the role's ARN
    exactly when the call succeeds, and lets every other exception escape. *)
Theorem get_role_arn_none_iff_missing (role_name : string) (s : St) :
  let probe := iam_get_role P role_name s in
  let o := deploy_backend.get_role_arn P role_name s in
  out_log o = [ECall (GetRole role_name) (raised_of probe.2)] /\
  out_st o = probe.1 /\
  (out_res o = inr None <-> exists e, probe.2 = inl e /\ is_NoSuchEntity e = true) /\
  (forall arn, out_res o = inr (Some arn) <-> probe.2 = inr arn) /\
  (forall e, out_res o = inl e <-> probe.2 = inl e /\ is_NoSuchEntity e = false).
Proof.
  intros probe o. subst o. rewrite get_role_arn_run. fold probe. simpl.
  split_and!; [done..| | |].
  - destruct probe.2 as [e|arn]; simpl; [|split; [done | by intros (? & ? & _)]].
    destruct (is_NoSuchEntity e) eqn:E; split; try done; [eauto|].
    intros (e' & [= <-] & ?). congruence.
  - intros arn. destruct probe.2 as [e|arn']; simpl; [|split; congruence].
    destruct (is_NoSuchEntity e); split; done.
  - intros e. destruct probe.2 as [e'|arn]; simpl; [|split; [done | by intros [? _]]].
    destruct (is_NoSuchEntity e') eqn:E; split; try done.
    + intros [[= <-] ?]. congruence.
    + intros [= <-]. done.
    + by intros [[= <-] _].
Qed.

(** X2. When [create_role] and both policy attachments succeed,
    [create_lambda_role] returns the ARN that [create_role] reported, after
    attaching the basic execution policy, then the DynamoDB policy, then
    sleeping ten seconds; it does not probe for the role. *)
Theorem create_lambda_role_created (role_name arn : string) (s s1 s2 s3 : St) :
  iam_create_role P role_name deploy_backend.trust_policy s = (s1, inr arn) ->
  iam_attach_role_policy P role_name
    "arn:aws:iam::aws:policy/service-role/AWSLambdaBasicExecutionRole" s1 = (s2, inr tt) ->
  iam_attach_role_policy P role_name "arn:aws:iam::aws:policy/AmazonDynamoDBFullAccess" s2
    = (s3, inr tt) ->
  deploy_backend.create_lambda_role P role_name s =
  Outcome s3
    [EPrint ("Creating IAM Role: " +:+ role_name +:+ "...");
     ECall (CreateRole role_name deploy_backend.trust_policy) None;
     ECall (AttachRolePolicy role_name
              "arn:aws:iam::aws:policy/service-role/AWSLambdaBasicExecutionRole") None;
     ECall (AttachRolePolicy role_name "arn:aws:iam::aws:policy/AmazonDynamoDBFullAccess")
       None;
     EPrint "Waiting for Role propagation...";
     ESleep 10]
    (inr (Some arn)).
Proof.
  intros H1 H2 H3. unfold deploy_backend.create_lambda_role. unfold_calls.
  run_script; done.
Qed.

(** X3. When the role is created but the first policy attachment raises,
    the error is printed, the second policy is never attached, there is no
    propagation wait, and the outcome is that of one re-probe for the
    role. *)
Theorem create_lambda_role_attach_failure (role_name arn : string) (s s1 s2 : St) (e : exn) :
  iam_create_role P role_name deploy_backend.trust_policy s = (s1, inr arn) ->
  iam_attach_role_policy P role_name
    "arn:aws:iam::aws:policy/service-role/AWSLambdaBasicExecutionRole" s1 = (s2, inl e) ->
  let probe := iam_get_role P role_name s2 in
  deploy_backend.create_lambda_role P role_name s =
  Outcome probe.1
    [EPrint ("Creating IAM Role: " +:+ role_name +:+ "...");
     ECall (CreateRole role_name deploy_backend.trust_policy) None;
     ECall (AttachRolePolicy role_name
              "arn:aws:iam::aws:policy/service-role/AWSLambdaBasicExecutionRole") (Some e);
     EPrint ("Error creating role: " +:+ exn_str e);
     ECall (GetRole role_name) (raised_of probe.2)]
    (probe_result probe.2).
Proof.
  intros H1 H2 probe. subst probe.
  unfold deploy_backend.create_lambda_role, deploy_backend.get_role_arn. unfold_calls.
  run_script; done.
Qed.

(** X4. [create_lambda_role] only calls IAM operations on the role it was
    given, and an exception escapes it only from the re-probe: the escaping
    exception is the one the last call, a [get_role], raised, and it is not
    [NoSuchEntityException]. *)
Theorem create_lambda_role_escapes_only_from_probe (role_name : string) (s : St) :
  let o := deploy_backend.create_lambda_role P role_name s in
  Forall (fun ev => forall c r, ev = ECall c r ->
            c = GetRole role_name \/ c = CreateRole role_name deploy_backend.trust_policy \/
            exists policy, c = AttachRolePolicy role_name policy)
    (out_log o) /\
  (forall e, out_res o = inl e ->
     is_NoSuchEntity e = false /\
     last (out_log o) = Some (ECall (GetRole role_name) (Some e))).
Proof.
  intros o. subst o.
  unfold deploy_backend.create_lambda_role, deploy_backend.get_role_arn. unfold_calls.
  explore; (split; [rewrite ?Forall_cons, Forall_nil; split_and!; try done;
                    intros c r ?; simplify_eq; eauto
                   | intros e' ?; by simplify_eq]).
Qed.

(** X5. When the first probe finds a role with a non-empty ARN, the role
    step makes that single call and returns the ARN: nothing is created or
    attached and an existing role is not reconciled.  An empty ARN counts as
    no role: the step goes on to create it. *)
Theorem role_step_found_or_empty (suffix arn : string) (s s1 : St) :
  let role_name := "QuestLambdaRole" +:+ suffix in
  iam_get_role P role_name s = (s1, inr arn) ->
  (arn <> "" ->
     deploy_backend.role_step P suffix s =
     Outcome s1 [ECall (GetRole role_name) None] (inr (Some arn))) /\
  (arn = "" ->
     exists r tail,
       out_log (deploy_backend.role_step P suffix s) =
       ECall (GetRole role_name) None ::
       EPrint ("Creating IAM Role: " +:+ role_name +:+ "...") ::
       ECall (CreateRole role_name deploy_backend.trust_policy) r :: tail).
Proof.
  intros role_name H. subst role_name. split.
  - intros Hne. unfold deploy_backend.role_step, deploy_backend.get_role_arn. unfold_calls.
    unfold_script. simpl. rewrite H. simpl.
    by rewrite bool_decide_false.
  - intros ->. unfold deploy_backend.role_step, deploy_backend.create_lambda_role,
      deploy_backend.get_role_arn. unfold_calls.
    explore; by eexists _, _.
Qed.

End RoleFunctions.

Lemma get_role_arn_none_iff_missing_witness :
  out_res (deploy_backend.get_role_arn (Cloud.clients "us-east-1") "QuestLambdaRole-dev"
             Cloud.empty) = inr None.
Proof.
  apply (get_role_arn_none_iff_missing (Cloud.clients "us-east-1") "QuestLambdaRole-dev"
           Cloud.empty).
  exists Cloud.no_such_entity. split; reflexivity.
Defined.

Lemma create_lambda_role_created_witness :
  out_res (deploy_backend.create_lambda_role (Cloud.clients "us-east-1")
             "QuestLambdaRole-dev" Cloud.empty) =
  inr (Some "arn:aws:iam::123456789012:role/QuestLambdaRole-dev").
Proof.
  rewrite (create_lambda_role_created (Cloud.clients "us-east-1") "QuestLambdaRole-dev"
             "arn:aws:iam::123456789012:role/QuestLambdaRole-dev" Cloud.empty
             (Cloud.create_role "QuestLambdaRole-dev" deploy_backend.trust_policy
                Cloud.empty).1
             (Cloud.attach_role_policy "QuestLambdaRole-dev"
                "arn:aws:iam::aws:policy/service-role/AWSLambdaBasicExecutionRole"
                (Cloud.create_role "QuestLambdaRole-dev" deploy_backend.trust_policy
                   Cloud.empty).1).1
             (Cloud.attach_role_policy "QuestLambdaRole-dev"
                "arn:aws:iam::aws:policy/AmazonDynamoDBFullAccess"
                (Cloud.attach_role_policy "QuestLambdaRole-dev"
                   "arn:aws:iam::aws:policy/service-role/AWSLambdaBasicExecutionRole"
                   (Cloud.create_role "QuestLambdaRole-dev" deploy_backend.trust_policy
                      Cloud.empty).1).1).1);
    vm_compute; reflexivity.
Defined.

Lemma create_lambda_role_attach_failure_witness :
  out_res (deploy_backend.create_lambda_role
             (with_failing_attach_role_policy throttled (Cloud.clients "us-east-1"))
             "QuestLambdaRole-dev" Cloud.empty) =
  inr (Some "arn:aws:iam::123456789012:role/QuestLambdaRole-dev").
Proof.
  rewrite (create_lambda_role_attach_failure
             (with_failing_attach_role_policy throttled (Cloud.clients "us-east-1"))
             "QuestLambdaRole-dev" "arn:aws:iam::123456789012:role/QuestLambdaRole-dev"
             Cloud.empty
             (Cloud.create_role "QuestLambdaRole-dev" deploy_backend.trust_policy
                Cloud.empty).1
             (Cloud.create_role "QuestLambdaRole-dev" deploy_backend.trust_policy
                Cloud.empty).1
             throttled);
    vm_compute; reflexivity.
Defined.

Lemma create_lambda_role_escapes_only_from_probe_witness :
  is_NoSuchEntity throttled = false /\
  last (out_log (deploy_backend.create_lambda_role
                   (with_failing_get_role throttled denied_clients)
                   "QuestLambdaRole-dev" Cloud.empty)) =
  Some (ECall (GetRole "QuestLambdaRole-dev") (Some throttled)).
Proof.
  apply (create_lambda_role_escapes_only_from_probe
           (with_failing_get_role throttled denied_clients) "QuestLambdaRole-dev"
           Cloud.empty).
  vm_compute. reflexivity.
Defined.

Lemma role_step_found_or_empty_witness :
  deploy_backend.role_step (Cloud.clients "us-east-1") "-dev" deployed_dev =
  Outcome deployed_dev [ECall (GetRole "QuestLambdaRole-dev") None]
    (inr (Some "arn:aws:iam::123456789012:role/QuestLambdaRole-dev")).
Proof.
  apply (role_step_found_or_empty (Cloud.clients "us-east-1") "-dev"
           "arn:aws:iam::123456789012:role/QuestLambdaRole-dev" deployed_dev deployed_dev).
  - vm_compute. reflexivity.
  - discriminate.
Defined.

(** ** The function and gateway steps of [main] *)

Section MainSteps.
Context {St : Type} (P : provider St).

(** X6. When the lookup of the function raises
    [ResourceNotFoundException], the deployable step creates the function
    with the Python 3.9 runtime, the given role, the handler
    [lambda_function.lambda_handler], the packaged code, the environment and
    a 15 second timeout, and makes no update call; what [create_function]
    raises escapes. *)
Theorem deployable_step_creates_when_missing (function_name : string)
    (role_arn : option string) (zip_content : archive) (env : str_dict) (s s1 : St) (e : exn) :
  lambda_get_function P function_name s = (s1, inl e) ->
  is_ResourceNotFound e = true ->
  let create := lambda_create_function P function_name "python3.9" role_arn
                  "lambda_function.lambda_handler" zip_content env 15 s1 in
  deploy_backend.deployable_step P function_name role_arn zip_content env s =
  Outcome create.1
    [EPrint ("Checking if function " +:+ function_name +:+ " exists...");
     ECall (GetFunction function_name) (Some e);
     EPrint ("Creating function " +:+ function_name +:+ "...");
     ECall (CreateFunction function_name "python3.9" role_arn
              "lambda_function.lambda_handler" zip_content env 15) (raised_of create.2)]
    create.2.
Proof.
  intros H1 He create. subst create. unfold deploy_backend.deployable_step. unfold_calls.
  run_script; done.
Qed.


(** X8. The API step takes the first API whose name equals the wanted name
    exactly and returns its identifier without creating anything; if there
    is none (or its identifier is empty) it creates an HTTP API with the
    permissive CORS configuration and returns the new identifier. *)
Theorem api_step_first_exact_name (api_name : string) (s s1 : St) (apis : list api_item) :
  apigw_get_apis P s = (s1, inr apis) ->
  let found := List.find (fun api => bool_decide (Name api = api_name)) apis in
  let cors := Cors ["*"] ["GET"; "POST"; "OPTIONS"] ["content-type"] in
  let create := apigw_create_api P api_name "HTTP" cors s1 in
  (forall api, found = Some api -> ApiId api <> "" ->
     Name api = api_name /\
     deploy_backend.api_step P api_name s =
     Outcome s1
       [EPrint ("Setting up API Gateway: " +:+ api_name +:+ "...");
        ECall GetApis None;
        EPrint ("Found existing API Gateway: " +:+ ApiId api)]
       (inr (ApiId api))) /\
  (found = None \/ (exists api, found = Some api /\ ApiId api = "") ->
     out_st (deploy_backend.api_step P api_name s) = create.1 /\
     out_res (deploy_backend.api_step P api_name s) = create.2 /\
     exists tail,
       out_log (deploy_backend.api_step P api_name s) =
       EPrint ("Setting up API Gateway: " +:+ api_name +:+ "...") ::
       ECall GetApis None ::
       ECall (CreateApi api_name "HTTP" cors) (raised_of create.2) :: tail).
Proof.
  intros H found cors create. subst found cors create.
  unfold deploy_backend.api_step, next_or_None. unfold_calls. split.
  - intros api Hf Hne. split.
    { apply find_some in Hf as [_ Hf]. by apply bool_decide_eq_true in Hf. }
    unfold_script. simpl. rewrite H. simpl. rewrite Hf. simpl.
    by rewrite bool_decide_false.
  - intros Hnone.
    assert (Hfalsy : truthy (ApiId <$>
              List.find (fun api => bool_decide (Name api = api_name)) apis) = false).
    { destruct Hnone as [-> | (api & -> & Hi)]; [done|]. simpl. by rewrite Hi. }
    unfold_script. simpl. rewrite H. simpl. rewrite Hfalsy. simpl.
    destruct (apigw_create_api P api_name "HTTP"
                (Cors ["*"] ["GET"; "POST"; "OPTIONS"] ["content-type"]) s1)
      as [s2 [e|a]]; simpl; eauto.
Qed.

(** X9. The route step creates the catch-all route [ANY /{proxy+}],
    targeting [integrations/{integration_id}], exactly when no existing
    route has that key; an existing route is left as it is, whatever it
    targets. *)
Theorem route_step_creates_iff_absent (api_id integration_id : string) (s s1 : St)
    (routes : list route_item) :
  apigw_get_routes P api_id s = (s1, inr routes) ->
  let create := apigw_create_route P api_id "ANY /{proxy+}"
                  ("integrations/" +:+ integration_id) s1 in
  (RouteItem "ANY /{proxy+}" ∈ routes ->
     deploy_backend.route_step P api_id integration_id s =
     Outcome s1 [ECall (GetRoutes api_id) None] (inr tt)) /\
  (RouteItem "ANY /{proxy+}" ∉ routes ->
     deploy_backend.route_step P api_id integration_id s =
     Outcome create.1
       [ECall (GetRoutes api_id) None;
        EPrint "Creating Route...";
        ECall (CreateRoute api_id "ANY /{proxy+}" ("integrations/" +:+ integration_id))
          (raised_of create.2)]
       create.2).
Proof.
  intros H create. subst create.
  assert (Hex : existsb (fun r => bool_decide (RouteKey r = deploy_backend.route_key)) routes
                = true <-> RouteItem "ANY /{proxy+}" ∈ routes).
  { rewrite existsb_exists. split.
    - intros ([k] & Hin & Hk). apply bool_decide_eq_true in Hk. simpl in Hk. subst k.
      by apply list_elem_of_In.
    - intros Hin. exists (RouteItem "ANY /{proxy+}"). split; [by apply list_elem_of_In | done]. }
  unfold deploy_backend.route_step. unfold_calls. split.
  - intros Hin. apply Hex in Hin. unfold_script. simpl. rewrite H. simpl.
    by rewrite Hin.
  - intros Hnin.
    assert (Hno : existsb (fun r => bool_decide (RouteKey r = deploy_backend.route_key))
                    routes = false).
    { apply not_true_is_false. by rewrite Hex. }
    unfold_script. simpl. rewrite H. simpl. rewrite Hno. simpl.
    unfold deploy_backend.route_key.
    by destruct (apigw_create_route P api_id "ANY /{proxy+}"
                   ("integrations/" +:+ integration_id) s1) as [s2 [e|[]]].
Qed.

(** X10. The stage step creates the [$default] stage with automatic
    deployment exactly when no stage of that name exists. *)
Theorem stage_step_creates_iff_absent (api_id : string) (s s1 : St)
    (stages : list stage_item) :
  apigw_get_stages P api_id s = (s1, inr stages) ->
  let create := apigw_create_stage P api_id "$default" true s1 in
  (StageItem "$default" ∈ stages ->
     deploy_backend.stage_step P api_id s =
     Outcome s1 [ECall (GetStages api_id) None] (inr tt)) /\
  (StageItem "$default" ∉ stages ->
     deploy_backend.stage_step P api_id s =
     Outcome create.1
       [ECall (GetStages api_id) None;
        EPrint "Creating $default Stage (Auto-Deploy)...";
        ECall (CreateStage api_id "$default" true) (raised_of create.2)]
       create.2).
Proof.
  intros H create. subst create.
  assert (Hfind : is_Some (List.find (fun st => bool_decide (StageName st = "$default"))
                             stages) <-> StageItem "$default" ∈ stages).
  { split.
    - intros [[k] Hf]. apply find_some in Hf as [Hin Hk].
      apply bool_decide_eq_true in Hk. simpl in Hk. subst k. by apply list_elem_of_In.
    - intros Hin. apply list_elem_of_In in Hin.
      destruct (List.find (fun st => bool_decide (StageName st = "$default")) stages)
        as [st|] eqn:E; [eauto|].
      by pose proof (find_none _ _ E _ Hin). }
  unfold deploy_backend.stage_step. unfold_calls. split.
  - intros Hin. apply Hfind in Hin. unfold_script. simpl. rewrite H. simpl.
    by rewrite bool_decide_true.
  - intros Hnin. unfold_script. simpl. rewrite H. simpl.
    rewrite bool_decide_false by (by rewrite Hfind). simpl.
    by destruct (apigw_create_stage P api_id "$default" true s1) as [s2 [e|[]]].
Qed.

End MainSteps.

Lemma deployable_step_creates_when_missing_witness :
  out_res (deploy_backend.deployable_step (Cloud.clients "us-east-1") "quest-api-dev"
             (Some "arn:aws:iam::123456789012:role/QuestLambdaRole-dev")
             (deploy_backend.create_zip sample_backend) (deploy_backend.env_vars "-dev")
             Cloud.empty) = inr tt.
Proof.
  rewrite (deployable_step_creates_when_missing (Cloud.clients "us-east-1") "quest-api-dev"
             (Some "arn:aws:iam::123456789012:role/QuestLambdaRole-dev")
             (deploy_backend.create_zip sample_backend) (deploy_backend.env_vars "-dev")
             Cloud.empty Cloud.empty (Cloud.function_not_found "GetFunction"));
    vm_compute; reflexivity.
Defined.


Lemma api_step_first_exact_name_witness :
  out_res (deploy_backend.api_step (Cloud.clients "us-east-1") "quest-api-gateway-dev"
             deployed_dev) = inr "api0".
Proof.
  destruct (proj1 (api_step_first_exact_name (Cloud.clients "us-east-1")
                     "quest-api-gateway-dev" deployed_dev deployed_dev
                     [ApiItem "api0" "quest-api-gateway-dev"] ltac:(vm_compute; reflexivity))
              (ApiItem "api0" "quest-api-gateway-dev")) as [_ H].
  - reflexivity.
  - discriminate.
  - rewrite H. reflexivity.
Defined.

Lemma route_step_creates_iff_absent_witness :
  deploy_backend.route_step (Cloud.clients "us-east-1") "api0" "int0" deployed_dev =
  Outcome deployed_dev [ECall (GetRoutes "api0") None] (inr tt).
Proof.
  apply (proj1 (route_step_creates_iff_absent (Cloud.clients "us-east-1") "api0" "int0"
                  deployed_dev deployed_dev [RouteItem "ANY /{proxy+}"]
                  ltac:(vm_compute; reflexivity))).
  apply list_elem_of_here.
Defined.

Lemma stage_step_creates_iff_absent_witness :
  deploy_backend.stage_step (Cloud.clients "us-east-1") "api0" deployed_dev =
  Outcome deployed_dev [ECall (GetStages "api0") None] (inr tt).
Proof.
  apply (proj1 (stage_step_creates_iff_absent (Cloud.clients "us-east-1") "api0"
                  deployed_dev deployed_dev [StageItem "$default"]
                  ltac:(vm_compute; reflexivity))).
  apply list_elem_of_here.
Defined.

(** ** [setup_dynamodb] *)

Section CreateTable.
Context {St : Type} (P : provider St).

(** X11. When the table is created and the wait succeeds, [create_table]
    sleeps five seconds and then enables time-to-live on the attribute
    [expiresAt] if and only if the table name contains ['sessions'] or
    ['teams'].  It returns normally whatever the time-to-live call does.  If
    that call raises, the outer handler catches the exception and decides by
    its message: without [ResourceInUseException] in it, the exception is
    printed as an error creating the table; with it, the table is reported
    as already existing and the time-to-live call is made a second time,
    its success or failure being only printed. *)
Theorem create_table_created (table_name : string) (key_schema attrs : list str_dict)
    (s s1 s2 : St) :
  dynamodb_create_table P table_name key_schema attrs "PAY_PER_REQUEST" s = (s1, inr tt) ->
  dynamodb_wait_until_exists P table_name s1 = (s2, inr tt) ->
  let o := setup_dynamodb.create_table P table_name key_schema attrs s in
  let ttl := dynamodb_update_time_to_live P table_name true "expiresAt" s2 in
  let retry := dynamodb_update_time_to_live P table_name true "expiresAt" ttl.1 in
  let created :=
    [ECall (CreateTable table_name key_schema attrs "PAY_PER_REQUEST") None;
     EPrint ("Creating table " +:+ table_name +:+ "...");
     ECall (WaitUntilExists table_name) None;
     EPrint ("Table " +:+ table_name +:+ " created successfully.");
     ESleep 5] in
  out_res o = inr tt /\
  (setup_dynamodb.wants_ttl table_name = false -> out_st o = s2 /\ out_log o = created) /\
  (setup_dynamodb.wants_ttl table_name = true ->
     (ttl.2 = inr tt ->
        out_st o = ttl.1 /\
        out_log o = created ++
          [EPrint ("Enabling TTL for " +:+ table_name +:+ "...");
           ECall (UpdateTimeToLive table_name true "expiresAt") None;
           EPrint "TTL enabled."]) /\
     (forall e, ttl.2 = inl e -> str_in "ResourceInUseException" (exn_str e) = false ->
        out_st o = ttl.1 /\
        out_log o = created ++
          [EPrint ("Enabling TTL for " +:+ table_name +:+ "...");
           ECall (UpdateTimeToLive table_name true "expiresAt") (Some e);
           EPrint ("Error creating " +:+ table_name +:+ ": " +:+ exn_str e)]) /\
     (forall e, ttl.2 = inl e -> str_in "ResourceInUseException" (exn_str e) = true ->
        out_st o = retry.1 /\
        out_log o = created ++
          [EPrint ("Enabling TTL for " +:+ table_name +:+ "...");
           ECall (UpdateTimeToLive table_name true "expiresAt") (Some e);
           EPrint ("Table " +:+ table_name +:+ " already exists.");
           ECall (UpdateTimeToLive table_name true "expiresAt") (raised_of retry.2);
           EPrint (match retry.2 with
                   | inr _ => "TTL verified/enabled for existing table " +:+ table_name
                   | inl ttl_e => "TTL check failed: " +:+ exn_str ttl_e
                   end)])).
Proof.
  intros H1 H2 o ttl retry created. subst o ttl retry created.
  unfold setup_dynamodb.create_table. unfold_calls. unfold_script. simpl.
  rewrite H1. simpl. rewrite H2. simpl.
  destruct (setup_dynamodb.wants_ttl table_name) eqn:Hw; simpl.
  - destruct (dynamodb_update_time_to_live P table_name true "expiresAt" s2)
      as [s3 [e|[]]] eqn:E; simpl.
    + destruct (str_in "ResourceInUseException" (exn_str e)) eqn:Hs; simpl;
        rewrite ?Hw; simpl.
      * destruct (dynamodb_update_time_to_live P table_name true "expiresAt" s3)
          as [s4 [e2|[]]] eqn:E2; simpl;
          (split_and!; [done..|]; intros _; split_and!; [done| |];
           intros e' [= <-] ?; [congruence | done]).
      * split_and!; [done..|]. intros _. split_and!; [done| |].
        -- by intros e' [= <-] _.
        -- intros e' [= <-] ?. congruence.
    + split_and!; [done..|]. intros _. split_and!; done.
  - split_and!; done.
Qed.

(** X12. When the creation call raises, [create_table] decides by the
    message of the exception, not its class.  If the message mentions
    [ResourceInUseException] the table is taken to exist and time-to-live is
    enabled on it anyway (for a name containing ['sessions'] or ['teams']),
    a failure of that call being only printed; for any other message the
    error is printed and no further call is made.  In both cases
    [create_table] returns normally. *)
Theorem create_table_creation_error (table_name : string) (key_schema attrs : list str_dict)
    (s s1 : St) (e : exn) :
  dynamodb_create_table P table_name key_schema attrs "PAY_PER_REQUEST" s = (s1, inl e) ->
  let o := setup_dynamodb.create_table P table_name key_schema attrs s in
  let ttl := dynamodb_update_time_to_live P table_name true "expiresAt" s1 in
  let failed := ECall (CreateTable table_name key_schema attrs "PAY_PER_REQUEST") (Some e) in
  out_res o = inr tt /\
  (str_in "ResourceInUseException" (exn_str e) = false ->
     out_st o = s1 /\
     out_log o = [failed; EPrint ("Error creating " +:+ table_name +:+ ": " +:+ exn_str e)]) /\
  (str_in "ResourceInUseException" (exn_str e) = true ->
     if setup_dynamodb.wants_ttl table_name then
       out_st o = ttl.1 /\
       out_log o =
         [failed; EPrint ("Table " +:+ table_name +:+ " already exists.");
          ECall (UpdateTimeToLive table_name true "expiresAt") (raised_of ttl.2);
          match ttl.2 with
          | inr _ => EPrint ("TTL verified/enabled for existing table " +:+ table_name)
          | inl ttl_e => EPrint ("TTL check failed: " +:+ exn_str ttl_e)
          end]
     else
       out_st o = s1 /\
       out_log o = [failed; EPrint ("Table " +:+ table_name +:+ " already exists.")]).
Proof.
  intros H1 o ttl failed. subst o ttl failed.
  unfold setup_dynamodb.create_table. unfold_calls. unfold_script. simpl.
  rewrite H1. simpl.
  destruct (str_in "ResourceInUseException" (exn_str e)) eqn:Hs; simpl.
  - destruct (setup_dynamodb.wants_ttl table_name) eqn:Hw; simpl.
    + destruct (dynamodb_update_time_to_live P table_name true "expiresAt" s1)
        as [s2 [e'|[]]]; simpl; split_and!; done.
    + split_and!; done.
  - split_and!; done.
Qed.

(** X13. For every suffix, the two tables [main] provisions are time-to-live
    tables, their names differ from each other whatever the suffixes, and
    each name determines its suffix. *)
Theorem main_tables_named_apart (suffix suffix' : string) :
  setup_dynamodb.wants_ttl (setup_dynamodb.sessions_table suffix) = true /\
  setup_dynamodb.wants_ttl (setup_dynamodb.teams_table suffix) = true /\
  setup_dynamodb.sessions_table suffix <> setup_dynamodb.teams_table suffix' /\
  (setup_dynamodb.sessions_table suffix = setup_dynamodb.sessions_table suffix' ->
   suffix = suffix') /\
  (setup_dynamodb.teams_table suffix = setup_dynamodb.teams_table suffix' ->
   suffix = suffix').
Proof.
  unfold setup_dynamodb.wants_ttl, setup_dynamodb.sessions_table, setup_dynamodb.teams_table.
  split_and!.
  - change ("quest-sessions" +:+ suffix) with ("quest-" +:+ "sessions" +:+ suffix).
    by rewrite str_in_app.
  - change ("quest-teams" +:+ suffix) with ("quest-" +:+ "teams" +:+ suffix).
    rewrite (str_in_app "teams"). apply orb_true_r.
  - discriminate.
  - apply (inj (String.app "quest-sessions")).
  - apply (inj (String.app "quest-teams")).
Qed.

Lemma create_table_calls suffix table_name key_schema attrs s :
  table_name = setup_dynamodb.sessions_table suffix \/
  table_name = setup_dynamodb.teams_table suffix ->
  Forall (table_call suffix)
    (out_log (setup_dynamodb.create_table P table_name key_schema attrs s)).
Proof.
  intros Hn. unfold setup_dynamodb.create_table. unfold_calls.
  explore; close_Forall.
Qed.

(** X14. [setup_dynamodb.main] only creates, waits for and sets
    time-to-live on tables, and only on the two tables named for its own
    suffix; it first attempts the sessions table. *)
Theorem setup_main_only_own_tables (region suffix : string) (s : St) :
  Forall (table_call suffix) (out_log (setup_dynamodb.main P region suffix s)) /\
  exists r tail,
    out_log (setup_dynamodb.main P region suffix s) =
    EPrint ("Connecting to DynamoDB in region: " +:+ region) ::
    EPrint ("Provisioning tables: " +:+ setup_dynamodb.sessions_table suffix +:+ ", " +:+
            setup_dynamodb.teams_table suffix) ::
    ECall (CreateTable (setup_dynamodb.sessions_table suffix)
             [[("AttributeName", "sessionId"); ("KeyType", "HASH")]]
             [[("AttributeName", "sessionId"); ("AttributeType", "S")]] "PAY_PER_REQUEST") r ::
    tail.
Proof.
  split.
  - unfold setup_dynamodb.main.
    repeat first
      [ apply create_table_calls; by eauto
      | apply log_Forall_bind; [| intros ? ?]
      | by (simpl; rewrite ?Forall_cons, ?Forall_nil) ].
  - unfold setup_dynamodb.main. rewrite !out_log_bind. simpl.
    destruct (create_table_run P (setup_dynamodb.sessions_table suffix)
                [[("AttributeName", "sessionId"); ("KeyType", "HASH")]]
                [[("AttributeName", "sessionId"); ("AttributeType", "S")]] s)
      as [_ [l1 ->]].
    by eexists _, _.
Qed.

End CreateTable.

Lemma create_table_created_witness :
  out_res (setup_dynamodb.create_table (Cloud.clients "us-east-1") "quest-sessions-dev"
             [[("AttributeName", "sessionId"); ("KeyType", "HASH")]]
             [[("AttributeName", "sessionId"); ("AttributeType", "S")]] Cloud.empty) = inr tt.
Proof.
  apply (create_table_created (Cloud.clients "us-east-1") "quest-sessions-dev"
           [[("AttributeName", "sessionId"); ("KeyType", "HASH")]]
           [[("AttributeName", "sessionId"); ("AttributeType", "S")]] Cloud.empty
           (Cloud.create_table "quest-sessions-dev"
              [[("AttributeName", "sessionId"); ("KeyType", "HASH")]]
              [[("AttributeName", "sessionId"); ("AttributeType", "S")]] "PAY_PER_REQUEST"
              Cloud.empty).1
           (Cloud.create_table "quest-sessions-dev"
              [[("AttributeName", "sessionId"); ("KeyType", "HASH")]]
              [[("AttributeName", "sessionId"); ("AttributeType", "S")]] "PAY_PER_REQUEST"
              Cloud.empty).1);
    vm_compute; reflexivity.
Defined.

Lemma create_table_creation_error_witness :
  out_res (setup_dynamodb.create_table (Cloud.clients "us-east-1") "quest-sessions-dev"
             [[("AttributeName", "sessionId"); ("KeyType", "HASH")]]
             [[("AttributeName", "sessionId"); ("AttributeType", "S")]] tables_dev) = inr tt.
Proof.
  apply (create_table_creation_error (Cloud.clients "us-east-1") "quest-sessions-dev"
           [[("AttributeName", "sessionId"); ("KeyType", "HASH")]]
           [[("AttributeName", "sessionId"); ("AttributeType", "S")]] tables_dev tables_dev
           (Cloud.client_error "ResourceInUseException" "CreateTable")).
  vm_compute. reflexivity.
Defined.

Lemma main_tables_named_apart_witness : "-stage" = "-stage".
Proof.
  apply (proj1 (proj2 (proj2 (proj2 (main_tables_named_apart "-stage" "-stage"))))).
  reflexivity.
Defined.

(** ** The calls of [deploy_backend.main] *)

Section MainCalls.
Context {St : Type} (P : provider St).

Lemma role_step_own_calls suffix s :
  forall api_id,
    Forall (fun ev => own_call suffix ev /\ api_passed api_id ev)
      (out_log (deploy_backend.role_step P suffix s)).
Proof.
  intros api_id.
  unfold deploy_backend.role_step, deploy_backend.create_lambda_role,
    deploy_backend.get_role_arn. unfold_calls.
  explore; close_Forall.
Qed.

Lemma deployable_step_own_calls suffix ra zip env s :
  forall api_id,
    Forall (fun ev => own_call suffix ev /\ api_passed api_id ev)
      (out_log (deploy_backend.deployable_step P ("quest-api" +:+ suffix) ra zip env s)).
Proof.
  intros api_id. unfold deploy_backend.deployable_step. unfold_calls.
  explore; close_Forall.
Qed.

Lemma api_step_own_calls suffix s :
  forall api_id,
    Forall (fun ev => own_call suffix ev /\ api_passed api_id ev)
      (out_log (deploy_backend.api_step P ("quest-api-gateway" +:+ suffix) s)).
Proof.
  intros api_id. unfold deploy_backend.api_step, next_or_None. unfold_calls.
  explore; close_Forall.
Qed.

Lemma integration_step_own_calls suffix api_id s :
  Forall (fun ev => own_call suffix ev /\ api_passed api_id ev)
    (out_log (deploy_backend.integration_step P api_id ("quest-api" +:+ suffix) s)).
Proof.
  unfold deploy_backend.integration_step, next_or_None. unfold_calls.
  explore; close_Forall.
Qed.

Lemma route_step_own_calls suffix api_id integration_id s :
  Forall (fun ev => own_call suffix ev /\ api_passed api_id ev)
    (out_log (deploy_backend.route_step P api_id integration_id s)).
Proof. unfold deploy_backend.route_step. unfold_calls. explore; close_Forall. Qed.

Lemma stage_step_own_calls suffix api_id s :
  Forall (fun ev => own_call suffix ev /\ api_passed api_id ev)
    (out_log (deploy_backend.stage_step P api_id s)).
Proof. unfold deploy_backend.stage_step. unfold_calls. explore; close_Forall. Qed.

Lemma permission_step_own_calls region suffix api_id s :
  Forall (fun ev => own_call suffix ev /\ api_passed api_id ev)
    (out_log (deploy_backend.permission_step P region ("quest-api" +:+ suffix) api_id s)).
Proof. unfold deploy_backend.permission_step. unfold_calls. explore; close_Forall. Qed.

Lemma log_exists_bind {A B} (Q : string -> event -> Prop) (m : M St A) (f : A -> M St B)
    (s : St) :
  (forall id, Forall (Q id) (out_log (m s))) ->
  (forall a s', exists id, Forall (Q id) (out_log (f a s'))) ->
  exists id, Forall (Q id) (out_log ((m ≫= f) s)).
Proof.
  intros Hm Hf. rewrite out_log_bind.
  destruct (out_res (m s)) as [e|a].
  - exists "". rewrite app_nil_r. apply Hm.
  - destruct (Hf a (out_st (m s))) as [id Hid]. exists id.
    apply Forall_app. split; [apply Hm | done].
Qed.

(** X15. In every run of [deploy_backend.main], whatever the provider does,
    each call addressed by a resource name uses the name derived from the
    run's suffix (role [QuestLambdaRole], function [quest-api], created API
    [quest-api-gateway], each followed by the suffix), no table call is made,
    and all calls addressed by an API identifier use one and the same
    identifier. *)
Theorem main_calls_own_resources (region suffix : string) (backend : node) (s : St) :
  exists api_id,
    Forall (fun ev => own_call suffix ev /\ api_passed api_id ev)
      (out_log (deploy_backend.main P region suffix backend s)).
Proof.
  rewrite main_log. unfold deploy_backend.main_locals.
  apply (log_exists_bind (fun id ev => own_call suffix ev /\ api_passed id ev));
    [by intros id; simpl; rewrite ?Forall_cons, ?Forall_nil | intros _ s1].
  apply (log_exists_bind (fun id ev => own_call suffix ev /\ api_passed id ev));
    [intros id; apply role_step_own_calls | intros role_arn s2].
  apply (log_exists_bind (fun id ev => own_call suffix ev /\ api_passed id ev));
    [by intros id; simpl; rewrite ?Forall_cons, ?Forall_nil | intros _ s3].
  apply (log_exists_bind (fun id ev => own_call suffix ev /\ api_passed id ev));
    [intros id; apply deployable_step_own_calls | intros _ s4].
  apply (log_exists_bind (fun id ev => own_call suffix ev /\ api_passed id ev));
    [intros id; apply api_step_own_calls | intros api_id s5].
  exists api_id.
  repeat first
    [ apply integration_step_own_calls | apply route_step_own_calls
    | apply stage_step_own_calls | apply permission_step_own_calls
    | apply log_Forall_bind; [| intros [] ? || intros ? ?]
    | by (simpl; rewrite ?Forall_cons, ?Forall_nil) ].
Qed.

End MainCalls.

(** ** The completion banner *)

Ltac close_not_banner :=
  simpl; rewrite ?Forall_cons, ?Forall_nil; repeat split; try done;
  intros Hbanner; try discriminate Hbanner;
  injection Hbanner as Hbanner; vm_compute in Hbanner; discriminate Hbanner.

Lemma quiet_bind {St A B} (m : M St A) (f : A -> M St B) (s : St) :
  Forall not_banner (out_log (m s)) ->
  (forall a s', quiet_on_failure (f a s')) ->
  quiet_on_failure ((m ≫= f) s).
Proof.
  intros Hm Hf e. rewrite out_res_bind, out_log_bind.
  destruct (out_res (m s)) as [e'|a]; intros He.
  - by rewrite app_nil_r.
  - apply Forall_app. split; [done | by apply (Hf a _ e)].
Qed.

Section Banner.
Context {St : Type} (P : provider St).

Lemma role_step_no_banner suffix s :
  Forall not_banner (out_log (deploy_backend.role_step P suffix s)).
Proof.
  unfold deploy_backend.role_step, deploy_backend.create_lambda_role,
    deploy_backend.get_role_arn. unfold_calls.
  explore; close_not_banner.
Qed.

Lemma deployable_step_no_banner fn ra zip env s :
  Forall not_banner (out_log (deploy_backend.deployable_step P fn ra zip env s)).
Proof. unfold deploy_backend.deployable_step. unfold_calls. explore; close_not_banner. Qed.

Lemma api_step_no_banner name s :
  Forall not_banner (out_log (deploy_backend.api_step P name s)).
Proof.
  unfold deploy_backend.api_step, next_or_None. unfold_calls. explore; close_not_banner.
Qed.

Lemma integration_step_no_banner api_id fn s :
  Forall not_banner (out_log (deploy_backend.integration_step P api_id fn s)).
Proof.
  unfold deploy_backend.integration_step, next_or_None. unfold_calls.
  explore; close_not_banner.
Qed.

Lemma route_step_no_banner api_id integration_id s :
  Forall not_banner (out_log (deploy_backend.route_step P api_id integration_id s)).
Proof. unfold deploy_backend.route_step. unfold_calls. explore; close_not_banner. Qed.

Lemma stage_step_no_banner api_id s :
  Forall not_banner (out_log (deploy_backend.stage_step P api_id s)).
Proof. unfold deploy_backend.stage_step. unfold_calls. explore; close_not_banner. Qed.

Lemma permission_step_no_banner region fn api_id s :
  Forall not_banner (out_log (deploy_backend.permission_step P region fn api_id s)).
Proof. unfold deploy_backend.permission_step. unfold_calls. explore; close_not_banner. Qed.

(** X16. [deploy_backend.main] prints [DEPLOYMENT COMPLETE] exactly when it
    returns normally: a run that an exception ended never prints it, and a
    run that ends normally prints it followed by the endpoint line. *)
Theorem banner_iff_success (region suffix : string) (backend : node) (s : St) :
  EPrint "DEPLOYMENT COMPLETE" ∈ out_log (deploy_backend.main P region suffix backend s) <->
  out_res (deploy_backend.main P region suffix backend s) = inr tt.
Proof.
  split.
  - intros Hin.
    destruct (out_res (deploy_backend.main P region suffix backend s)) as [e|[]] eqn:E;
      [|done].
    exfalso.
    assert (Hq : quiet_on_failure (deploy_backend.main_locals P region suffix backend s)).
    { unfold deploy_backend.main_locals.
      repeat first
        [ apply role_step_no_banner | apply deployable_step_no_banner
        | apply api_step_no_banner | apply integration_step_no_banner
        | apply route_step_no_banner | apply stage_step_no_banner
        | apply permission_step_no_banner
        | match goal with
          | |- quiet_on_failure _ => intros ? He; simpl in He; discriminate He
          end
        | apply quiet_bind; [| intros [] ? || intros ? ?]
        | close_not_banner ]. }
    unfold deploy_backend.main in E. rewrite out_res_bind in E.
    destruct (out_res (deploy_backend.main_locals P region suffix backend s))
      as [e'|loc] eqn:E'; [|done].
    rewrite main_log in Hin. specialize (Hq e' E').
    rewrite Forall_forall in Hq. by apply Hq in Hin.
  - intros E. unfold deploy_backend.main in E. rewrite out_res_bind in E.
    destruct (out_res (deploy_backend.main_locals P region suffix backend s))
      as [e'|loc] eqn:E'; [done|].
    rewrite main_log. clear E. revert E'. unfold deploy_backend.main_locals. intros H.
    repeat match type of H with
    | out_res ((_ ≫= _) _) = inr _ =>
        let a := fresh "a" in
        let Ha := fresh "Ha" in
        let Hl := fresh "Hl" in
        apply bind_inr_inv_log in H as (a & Ha & H & Hl); rewrite Hl; clear Hl
    | out_res (match ?x with pair _ _ => _ end _) = inr _ => destruct x
    end.
    simpl.
    repeat first [rewrite elem_of_cons | rewrite elem_of_app].
    repeat first [by left | right].
Qed.

End Banner.

(** ** Archive names *)

Lemma concat_last (sep : string) (path : list string) (file : string) :
  exists pre, String.concat sep (path ++ [file]) = pre +:+ file.
Proof.
  induction path as [|d path [pre IH]].
  - by exists "".
  - destruct path as [|d' path].
    + exists (d +:+ sep). simpl. by rewrite str_app_assoc.
    + exists (d +:+ sep +:+ pre). simpl in *. rewrite IH. by rewrite !str_app_assoc.
Qed.

(** X17. Every name in the archive [create_zip] builds ends in ['.py'], and
    packaging a source directory that is a plain file or contains no ['.py']
    file yields an empty archive. *)
Theorem create_zip_names_end_in_py (source_dir : node) :
  (forall name c, (name, c) ∈ deploy_backend.create_zip source_dir ->
     endswith name ".py" = true) /\
  ((forall path file c, has_file source_dir (path ++ [file]) c ->
      endswith file ".py" = false) ->
   deploy_backend.create_zip source_dir = []).
Proof.
  split.
  - intros name c Hin. apply (zip_entries_spec source_dir []) in Hin
      as (path & file & _ & Hpy & ->).
    apply endswith_spec in Hpy as [pre ->]. apply endswith_spec.
    destruct (concat_last "/" path (pre +:+ ".py")) as [pre' Hc].
    exists (pre' +:+ pre). unfold relpath. simpl. rewrite Hc. by rewrite str_app_assoc.
  - intros Hno.
    destruct (deploy_backend.create_zip source_dir) as [|[name c] l] eqn:E; [done|].
    assert (Hin : (name, c) ∈ deploy_backend.create_zip source_dir)
      by (rewrite E; apply list_elem_of_here).
    apply (zip_entries_spec source_dir []) in Hin as (path & file & Hf & Hpy & _).
    apply Hno in Hf. congruence.
Qed.

Lemma create_zip_names_end_in_py_witness :
  deploy_backend.create_zip (Dir [("README.md", File "docs"); ("data", Dir [])]) = [].
Proof.
  apply (create_zip_names_end_in_py (Dir [("README.md", File "docs"); ("data", Dir [])])).
  intros path file c H.
  inversion H as [es f c' Hin Heq | es d sub p c' Hin Hsub Heq]; subst.
  - apply elem_of_cons in Hin as [[= -> ->] | Hin].
    + destruct path as [|? [|? ?]]; simplify_eq/=. reflexivity.
    + apply elem_of_cons in Hin as [[=] | Hin]. by apply elem_of_nil in Hin.
  - apply elem_of_cons in Hin as [[= -> ->] | Hin]; [inversion Hsub|].
    apply elem_of_cons in Hin as [[= -> ->] | Hin]; [|by apply elem_of_nil in Hin].
    inversion Hsub as [? ? ? Hin' | ? ? ? ? ? Hin']; by apply elem_of_nil in Hin'.
Defined.

Lemma banner_iff_success_witness :
  EPrint "DEPLOYMENT COMPLETE" ∈
    out_log (deploy_backend.main (Cloud.clients "us-east-1") "us-east-1" "-dev"
               sample_backend Cloud.empty).
Proof.
  apply (banner_iff_success (Cloud.clients "us-east-1") "us-east-1" "-dev" sample_backend
           Cloud.empty).
  vm_compute. reflexivity.
Defined.

(** ** What is deployed, and for which tables *)

Section Deployed.
Context {St : Type} (P : provider St).

Lemma role_step_deploys zip env suffix s :
  Forall (deploys zip env) (out_log (deploy_backend.role_step P suffix s)).
Proof.
  unfold deploy_backend.role_step, deploy_backend.create_lambda_role,
    deploy_backend.get_role_arn. unfold_calls.
  explore; close_Forall.
Qed.

Lemma deployable_step_deploys fn ra zip env s :
  Forall (deploys zip env) (out_log (deploy_backend.deployable_step P fn ra zip env s)).
Proof. unfold deploy_backend.deployable_step. unfold_calls. explore; close_Forall. Qed.

Lemma api_step_deploys zip env name s :
  Forall (deploys zip env) (out_log (deploy_backend.api_step P name s)).
Proof.
  unfold deploy_backend.api_step, next_or_None. unfold_calls. explore; close_Forall.
Qed.

Lemma integration_step_deploys zip env api_id fn s :
  Forall (deploys zip env) (out_log (deploy_backend.integration_step P api_id fn s)).
Proof.
  unfold deploy_backend.integration_step, next_or_None. unfold_calls.
  explore; close_Forall.
Qed.

Lemma route_step_deploys zip env api_id integration_id s :
  Forall (deploys zip env) (out_log (deploy_backend.route_step P api_id integration_id s)).
Proof. unfold deploy_backend.route_step. unfold_calls. explore; close_Forall. Qed.

Lemma stage_step_deploys zip env api_id s :
  Forall (deploys zip env) (out_log (deploy_backend.stage_step P api_id s)).
Proof. unfold deploy_backend.stage_step. unfold_calls. explore; close_Forall. Qed.

Lemma permission_step_deploys zip env region fn api_id s :
  Forall (deploys zip env) (out_log (deploy_backend.permission_step P region fn api_id s)).
Proof. unfold deploy_backend.permission_step. unfold_calls. explore; close_Forall. Qed.

Lemma main_deploys region suffix backend s :
  Forall (deploys (deploy_backend.create_zip backend)
            [("DYNAMODB_TABLE_SESSIONS", setup_dynamodb.sessions_table suffix);
             ("DYNAMODB_TABLE_TEAMS", setup_dynamodb.teams_table suffix)])
    (out_log (deploy_backend.main P region suffix backend s)).
Proof.
  rewrite main_log. unfold deploy_backend.main_locals.
  repeat first
    [ apply role_step_deploys | apply deployable_step_deploys | apply api_step_deploys
    | apply integration_step_deploys | apply route_step_deploys
    | apply stage_step_deploys | apply permission_step_deploys
    | apply log_Forall_bind; [| intros [] ? || intros ? ?]
    | by (simpl; rewrite ?Forall_cons, ?Forall_nil) ].
Qed.

Lemma setup_main_table_calls region suffix s :
  Forall (table_call suffix) (out_log (setup_dynamodb.main P region suffix s)).
Proof.
  unfold setup_dynamodb.main.
  repeat first
    [ apply create_table_calls; by eauto
    | apply log_Forall_bind; [| intros ? ?]
    | by (simpl; rewrite ?Forall_cons, ?Forall_nil) ].
Qed.

(** X18. In every run of [deploy_backend.main], whatever the provider does,
    each update or creation of the function carries the archive packaged
    from the source tree of this run, and each configuration update or
    creation sets [DYNAMODB_TABLE_SESSIONS] and [DYNAMODB_TABLE_TEAMS] to
    exactly the two table names [setup_dynamodb.main] provisions for the
    same suffix; a creation uses runtime [python3.9], handler
    [lambda_function.lambda_handler] and a 15 second timeout. *)
Theorem main_deploys_packaged_code_for_own_tables (region suffix : string) (backend : node)
    (s : St) :
  Forall (deploys (deploy_backend.create_zip backend)
            [("DYNAMODB_TABLE_SESSIONS", setup_dynamodb.sessions_table suffix);
             ("DYNAMODB_TABLE_TEAMS", setup_dynamodb.teams_table suffix)])
    (out_log (deploy_backend.main P region suffix backend s)).
Proof. apply main_deploys. Qed.

End Deployed.

(** X19. Run without arguments, the two scripts do not agree on the tables:
    [deploy_backend.main] (default suffix ['-dev']) configures the function
    for [quest-sessions-dev] and [quest-teams-dev], while
    [setup_dynamodb.main] (default suffix empty) only touches
    [quest-sessions] and [quest-teams], so neither table the function is
    told to use is one the table script provisions. *)
Theorem default_suffixes_disagree {St St' : Type} (P : provider St) (P' : provider St')
    (backend : node) (s : St) (s' : St') :
  Forall (deploys (deploy_backend.create_zip backend)
            [("DYNAMODB_TABLE_SESSIONS", "quest-sessions-dev");
             ("DYNAMODB_TABLE_TEAMS", "quest-teams-dev")])
    (out_log (deploy_backend.main P deploy_default_region deploy_default_env backend s)) /\
  Forall (fun ev => table_call setup_default_env ev /\
                    forall n ks ad b r, ev = ECall (CreateTable n ks ad b) r ->
                      n <> "quest-sessions-dev" /\ n <> "quest-teams-dev")
    (out_log (setup_dynamodb.main P' setup_default_region setup_default_env s')).
Proof.
  split.
  - apply (main_deploys P deploy_default_region deploy_default_env backend s).
  - pose proof (setup_main_table_calls P' setup_default_region setup_default_env s') as H.
    rewrite Forall_forall in H. apply Forall_forall. intros ev Hin. split; [by apply H|].
    intros n ks ad b r ->. apply H in Hin. simpl in Hin.
    destruct Hin as [-> | ->]; split; discriminate.
Qed.
